(** * Nutrient estimator (h.py): energy, macronutrients, micronutrient table

    A shallow embedding of the calculation functions of [h.py]
    ([calc_bmr], [calc_tdee], [calc_macros], [base_micronutrient_table]
    and the fat / carbohydrate arithmetic of [pretty_print_results]),
    followed by the properties stated about them.

    Python [float] is IEEE 754 binary64 and is embedded as the primitive
    type [float]; its operations are specified bit for bit by [SpecFloat]
    through [FloatAxioms].  Python [int] is unbounded and is embedded as
    [Z].  Python [str] is [string] (a byte string, UTF-8 for the units). *)

From Stdlib Require Import ZArith Bool String List Lia Floats.
Import ListNotations.

Set Warnings "-inexact-float".

Local Open Scope string_scope.

(** ** Python numbers *)

(** A number stored in the tables or produced by [max(0, ...)] is an [int]
    or a [float]. *)
Inductive num : Type :=
| PyInt (z : Z)
| PyFloat (f : float).

(** [int -> float] as done implicitly by [float - int]: the nearest
    binary64 (ties to even); Python raises [OverflowError] when the
    integer is too large, which is [None] here. *)
Definition float_of_int (z : Z) : option float :=
  match binary_normalize prec emax z 0 false with
  | S754_infinity _ => None
  | sf => Some (SF2Prim sf)
  end.

(** The quotient [n / d] ([d > 0]) rounded to the nearest integer, ties to
    the even one. *)
Definition round_half_even_div (n d : Z) : Z :=
  let q := (n / d)%Z in
  match (2 * (n mod d) ?= d)%Z with
  | Lt => q
  | Gt => (q + 1)%Z
  | Eq => if Z.even q then q else (q + 1)%Z
  end.

(** [round(x, ndigits)] on a float, for [ndigits >= 0] (the program calls
    it with 1 and 2): the exact value of [x] is rounded half-even to
    [ndigits] decimals (the correctly rounded decimal string), and the
    decimal is read back as the nearest float.  Zeros, infinities and NaN
    round to themselves; the sign is kept when the result is zero. *)
Definition py_round (x : float) (ndigits : N) : float :=
  match Prim2SF x with
  | S754_finite s m e =>
      let p10 := (10 ^ Z.of_N ndigits)%Z in
      let n := if (0 <=? e)%Z then (Zpos m * 2 ^ e * p10)%Z
               else round_half_even_div (Zpos m * p10) (2 ^ (- e)) in
      match n with
      | Zpos n' =>
          SF2Prim (SF64div (S754_finite s n' 0)
                           (S754_finite false (Z.to_pos p10) 0))
      | _ => if s then (-0)%float else 0%float
      end
  | _ => x
  end.

(** [max(0, x)]: Python's [max] keeps its first argument unless a later
    one compares strictly greater, so the result is the integer [0]
    unless [x > 0] (in particular for a NaN and for [-0.0]). *)
Definition py_max0 (x : float) : num :=
  if (0 <? x)%float then PyFloat x else PyInt 0.

(** [0 <= v] on a number. *)
Definition num_nonneg (v : num) : bool :=
  match v with
  | PyInt z => (0 <=? z)%Z
  | PyFloat f => (0 <=? f)%float
  end.

(** ** Python dictionaries with string keys

    Insertion ordered: assigning to a key that is present replaces the
    value where it stands, a new key goes to the end. *)
Section Dict.
Context {V : Type}.

Definition dict := list (string * V).

Fixpoint dict_set (d : dict) (k : string) (v : V) : dict :=
  match d with
  | [] => [(k, v)]
  | (k', v') :: d' =>
      if k' =? k then (k', v) :: d' else (k', v') :: dict_set d' k v
  end.

Fixpoint dict_get (d : dict) (k : string) : option V :=
  match d with
  | [] => None
  | (k', v') :: d' => if k' =? k then Some v' else dict_get d' k
  end.

(** [d.get(k, default)] *)
Definition dict_get_default (d : dict) (k : string) (default : V) : V :=
  match dict_get d k with
  | Some v => v
  | None => default
  end.

(** A run of assignments [d[k] = v], first to last. *)
Definition assign (d : dict) (kvs : list (string * V)) : dict :=
  fold_left (fun acc kv => dict_set acc (fst kv) (snd kv)) kvs d.

Definition keys (d : dict) : list string := map fst d.
End Dict.
Arguments dict V : clear implicits.

(** ** Energy: BMR (Mifflin-St Jeor) and TDEE *)

Local Open Scope float_scope.

(** [calc_bmr(sex, weight, height, age)].  [weight] and [height] are
    floats, [age] an int: [5 * age] is an integer product, converted to
    float by the subtraction. *)
Definition calc_bmr (sex : string) (weight height : float) (age : Z)
  : option float :=
  match float_of_int (5 * age) with
  | None => None
  | Some age5 =>
      if (sex =? "male")%string
      then Some (10 * weight + 6.25 * height - age5 + 5)
      else Some (10 * weight + 6.25 * height - age5 - 161)
  end.

Definition activity_factors : dict float :=
  [ ("sedentary", 1.2);
    ("light", 1.375);
    ("moderate", 1.55);
    ("active", 1.725);
    ("very_active", 1.9) ].

(** [calc_tdee(bmr, activity, goal)] *)
Definition calc_tdee (bmr : float) (activity goal : string) : float :=
  let factor := dict_get_default activity_factors activity 1.375 in
  let tdee := bmr * factor in
  if (goal =? "lose")%string then tdee * 0.85
  else if (goal =? "gain")%string then tdee * 1.10
  else tdee.

(** ** Macronutrients *)

Record macros : Type := Build_macros {
  protein_g_per_day : float;
  protein_g_per_kg : float
}.

(** [x in (...)] for a tuple of strings. *)
Definition str_in (x : string) (l : list string) : bool :=
  existsb (fun y => (x =? y)%string) l.

(** The protein rate [base_protein] of [calc_macros] when it reaches the
    rounding: 0.8, replaced by 1.2 for the three higher activity levels,
    then the two goal increments, each under its own [if]. *)
Definition base_protein (activity goal : string) : float :=
  let base_protein := 0.8 in
  let base_protein :=
    if str_in activity ["moderate"; "active"; "very_active"]%string
    then 1.2 else base_protein in
  let base_protein :=
    if (goal =? "gain")%string then base_protein + 0.3 else base_protein in
  let base_protein :=
    if (goal =? "lose")%string then base_protein + 0.2 else base_protein in
  base_protein.

(** [calc_macros(weight, activity, goal)] *)
Definition calc_macros (weight : float) (activity goal : string) : macros :=
  let base_protein := base_protein activity goal in
  let protein_g := py_round (base_protein * weight) 1 in
  {| protein_g_per_day := protein_g;
     protein_g_per_kg := py_round base_protein 2 |}.

(** The fat and carbohydrate figures computed by [pretty_print_results]
    from the TDEE and the protein target. *)
Definition fat_kcal (tdee : float) : float := tdee * 0.30.

Definition fat_g (tdee : float) : float := fat_kcal tdee / 9.

Definition carbs_kcal (tdee protein_g : float) : float :=
  tdee - (protein_g * 4) - fat_kcal tdee.

Definition carbs_g (tdee protein_g : float) : num :=
  py_max0 (carbs_kcal tdee protein_g / 4).

(** ** Micronutrient table *)

Local Open Scope string_scope.

(** A table row: [(value, unit, note)]. *)
Definition entry : Type := num * string * string.

Definition male_vitamins : list (string * entry) :=
  [ ("Vitamin A", (PyInt 900, "µg RAE", "Adult male RDA"));
    ("Vitamin C", (PyInt 90, "mg", ""));
    ("Vitamin D", (PyInt 15, "µg (600 IU)", ""));
    ("Vitamin E", (PyInt 15, "mg", ""));
    ("Vitamin K", (PyInt 120, "µg", ""));
    ("Thiamin (B1)", (PyFloat 1.2, "mg", ""));
    ("Riboflavin (B2)", (PyFloat 1.3, "mg", ""));
    ("Niacin (B3)", (PyInt 16, "mg NE", ""));
    ("Vitamin B6", (PyFloat 1.3, "mg", "may increase with age"));
    ("Folate (B9)", (PyInt 400, "µg DFE", ""));
    ("Vitamin B12", (PyFloat 2.4, "µg", ""));
    ("Pantothenic acid (B5)", (PyInt 5, "mg", ""));
    ("Biotin (B7)", (PyInt 30, "µg", "")) ].

Definition female_vitamins : list (string * entry) :=
  [ ("Vitamin A", (PyInt 700, "µg RAE", "Adult female RDA"));
    ("Vitamin C", (PyInt 75, "mg", ""));
    ("Vitamin D", (PyInt 15, "µg (600 IU)", ""));
    ("Vitamin E", (PyInt 15, "mg", ""));
    ("Vitamin K", (PyInt 90, "µg", ""));
    ("Thiamin (B1)", (PyFloat 1.1, "mg", ""));
    ("Riboflavin (B2)", (PyFloat 1.1, "mg", ""));
    ("Niacin (B3)", (PyInt 14, "mg NE", ""));
    ("Vitamin B6", (PyFloat 1.3, "mg", ""));
    ("Folate (B9)", (PyInt 400, "µg DFE", ""));
    ("Vitamin B12", (PyFloat 2.4, "µg", ""));
    ("Pantothenic acid (B5)", (PyInt 5, "mg", ""));
    ("Biotin (B7)", (PyInt 30, "µg", "")) ].

Definition male_minerals : list (string * entry) :=
  [ ("Calcium", (PyInt 1000, "mg", "Adults 19-50"));
    ("Iron", (PyInt 8, "mg", "Men"));
    ("Magnesium", (PyInt 400, "mg", "Adult male"));
    ("Phosphorus", (PyInt 700, "mg", ""));
    ("Potassium", (PyInt 3400, "mg", "AI"));
    ("Sodium", (PyInt 1500, "mg", "AI (upper limits higher)"));
    ("Zinc", (PyInt 11, "mg", ""));
    ("Copper", (PyFloat 0.9, "mg", ""));
    ("Manganese", (PyFloat 2.3, "mg", ""));
    ("Selenium", (PyInt 55, "µg", ""));
    ("Chromium", (PyInt 35, "µg", ""));
    ("Iodine", (PyInt 150, "µg", ""));
    ("Fluoride", (PyInt 4, "mg", "AI")) ].

Definition female_minerals : list (string * entry) :=
  [ ("Calcium", (PyInt 1000, "mg", "Adults 19-50"));
    ("Iron", (PyInt 18, "mg", "Women of reproductive age"));
    ("Magnesium", (PyInt 310, "mg", "Adult female"));
    ("Phosphorus", (PyInt 700, "mg", ""));
    ("Potassium", (PyInt 2600, "mg", "AI"));
    ("Sodium", (PyInt 1500, "mg", "AI (upper limits higher)"));
    ("Zinc", (PyInt 8, "mg", ""));
    ("Copper", (PyFloat 0.9, "mg", ""));
    ("Manganese", (PyFloat 1.8, "mg", ""));
    ("Selenium", (PyInt 55, "µg", ""));
    ("Chromium", (PyInt 25, "µg", ""));
    ("Iodine", (PyInt 150, "µg", ""));
    ("Fluoride", (PyInt 3, "mg", "AI")) ].

Definition menstruating_adjustments : list (string * entry) :=
  [ ("Iron", (PyInt 18, "mg", "Increased due to menstrual losses")) ].

Definition pregnant_adjustments : list (string * entry) :=
  [ ("Folate (B9)", (PyInt 600, "µg DFE", "Pregnancy increased need"));
    ("Iron", (PyInt 27, "mg", "Pregnancy increased need"));
    ("Calcium", (PyInt 1000, "mg", "Pregnancy recommendation"));
    ("Vitamin D", (PyInt 15, "µg (600 IU)", "May be increased based on status"));
    ("Iodine", (PyInt 220, "µg", "Pregnancy increased need")) ].

Definition breastfeeding_adjustments : list (string * entry) :=
  [ ("Folate (B9)", (PyInt 500, "µg DFE", "Lactation increased need"));
    ("Iron", (PyInt 9, "mg", "Postpartum needs lower than pregnancy"));
    ("Vitamin D", (PyInt 15, "µg (600 IU)", ""));
    ("Iodine", (PyInt 290, "µg", "Lactation increased need")) ].

(** [base_micronutrient_table(sex, age, menstruating, pregnant,
    breastfeeding)]: the dictionary [d] after each block of the function
    body.  [age] is a parameter the body never reads. *)
Definition base_micronutrient_table (sex : string) (age : Z)
    (menstruating pregnant breastfeeding : bool) : dict entry :=
  let d := [] in
  let d := if sex =? "male" then assign d male_vitamins
           else assign d female_vitamins in
  let d := if sex =? "male" then assign d male_minerals
           else assign d female_minerals in
  let d := if menstruating && (sex =? "female")
           then assign d menstruating_adjustments else d in
  let d := if pregnant && (sex =? "female")
           then assign d pregnant_adjustments else d in
  let d := if breastfeeding && (sex =? "female")
           then assign d breastfeeding_adjustments else d in
  d.

(** The nutrient names, vitamins then minerals, in insertion order. *)
Definition nutrient_keys : list string :=
  [ "Vitamin A"; "Vitamin C"; "Vitamin D"; "Vitamin E"; "Vitamin K";
    "Thiamin (B1)"; "Riboflavin (B2)"; "Niacin (B3)"; "Vitamin B6";
    "Folate (B9)"; "Vitamin B12"; "Pantothenic acid (B5)"; "Biotin (B7)";
    "Calcium"; "Iron"; "Magnesium"; "Phosphorus"; "Potassium"; "Sodium";
    "Zinc"; "Copper"; "Manganese"; "Selenium"; "Chromium"; "Iodine";
    "Fluoride" ].

(** ** Specification-level notions used by the properties *)

(** The protein rate as the rule is worded: a base of 0.8 g/kg, 1.2 g/kg
    instead for the activities moderate, active and very_active; then 0.3
    more for the goal gain, or 0.2 more for the goal lose. *)
Definition protein_rate_spec (activity goal : string) : float :=
  let rate :=
    if str_in activity ["moderate"; "active"; "very_active"]%string
    then 1.2 else 0.8 in
  if (goal =? "gain")%string then rate + 0.3
  else if (goal =? "lose")%string then rate + 0.2
  else rate.

(** A float of sign [s]: a zero, an infinity or a finite number, not a
    NaN. *)
Definition SFsigned (s : bool) (r : spec_float) : Prop :=
  match r with
  | S754_zero s' | S754_infinity s' | S754_finite s' _ _ => s' = s
  | S754_nan => False
  end.

(** [0 <= x] at the bit level. *)
Definition SFnonneg (x : spec_float) : bool := SFleb (S754_zero false) x.

(** The float 166.0, bit for bit. *)
Definition SF166 : spec_float := S754_finite false 5840605766746112 (-45).

(** The exact value of a zero or finite float, counted in units of
    2^-1074 (the smallest positive binary64: the exponent of a valid
    float is at least -1074, so the count is an integer); [None] for an
    infinity or a NaN. *)
Definition SF2units (x : spec_float) : option Z :=
  match x with
  | S754_zero _ => Some 0%Z
  | S754_finite s m e => Some (cond_Zopp s (Zpos m) * 2 ^ (e + 1074))%Z
  | _ => None
  end.

Definition float_units (x : float) : option Z := SF2units (Prim2SF x).

(** [z] is exactly [x + c] for the integer [c]: both are finite and the
    operation that produced [z] from [x] did not round. *)
Definition exact_offset (x : float) (c : Z) (z : float) : Prop :=
  match float_units x, float_units z with
  | Some ux, Some uz => (uz = ux + c * 2 ^ 1074)%Z
  | _, _ => False
  end.

(** [k] is the integer nearest to the quotient [a / d], the even one of
    the two when [a / d] lies half way between two integers. *)
Definition nearest_even (a d k : Z) : Prop :=
  (2 * Z.abs (a - k * d) <= d)%Z
  /\ ((2 * Z.abs (a - k * d))%Z = d -> Z.even k = true).

(** [r] is [y] rounded to [ndigits] decimals: with [k] the integer
    nearest to [10 ^ ndigits * y] (the even one on a tie, the exact value
    of [y] being counted), [r] is the float of the decimal
    [k / 10 ^ ndigits].  As long as [k] is below 2^53 in absolute value,
    that float is the quotient of the floats of [k] and of
    [10 ^ ndigits], and a zero when [k = 0].  An infinity or a NaN is
    left as it is. *)
Definition rounded_to (ndigits : N) (y r : float) : Prop :=
  match float_units y with
  | None => r = y
  | Some u =>
      exists k : Z,
        nearest_even (10 ^ Z.of_N ndigits * u) (2 ^ 1074) k
        /\ ((Z.abs k < 2 ^ 53)%Z ->
            if (k =? 0)%Z then float_units r = Some 0%Z
            else exists fk fp,
                float_of_int k = Some fk
                /\ float_of_int (10 ^ Z.of_N ndigits) = Some fp
                /\ r = (fk / fp)%float)
  end.


(** The five activity names of the factor table, and the three that raise
    the protein base. *)
Definition activity_names : list string :=
  ["sedentary"; "light"; "moderate"; "active"; "very_active"]%string.

Definition high_activity : list string :=
  ["moderate"; "active"; "very_active"]%string.

(** The parts of a table row. *)
Definition row_value (r : entry) : num := fst (fst r).

Definition row_unit (r : entry) : string := snd (fst r).

(** The amounts of a table: name, value and unit of each row, without the
    notes. *)
Definition amounts (t : dict entry) : list (string * num * string) :=
  map (fun kv => (fst kv, row_value (snd kv), row_unit (snd kv))) t.

(** [0 < v] on a number. *)
Definition num_pos (v : num) : bool :=
  match v with
  | PyInt z => (0 <? z)%Z
  | PyFloat f => (0 <? f)%float
  end.

(** ** Reading the profile and running the estimate

    [input_or_default], [get_user_data] and [main] read lines from the
    standard input.  The input is the list of the lines still to be read:
    [input()] takes the first one and raises [EOFError] when there is
    none.  What the program prints is not part of the model.  The string
    methods [strip] and [lower] and the conversions [int(v)] and
    [float(v)] ([None] when they raise) are parameters. *)

Inductive exn : Type := EOFError | TypeError | OverflowError.

Inductive outcome (A : Type) : Type :=
| Ok (a : A) (rest : list string)
| Raise (e : exn).
Arguments Ok {A} a rest.
Arguments Raise {A} e.

Definition io (A : Type) : Type := list string -> outcome A.

Definition ret {A} (a : A) : io A := fun lines => Ok a lines.

Definition bind {A B} (m : io A) (f : A -> io B) : io B :=
  fun lines =>
    match m lines with
    | Ok a rest => f a rest
    | Raise e => Raise e
    end.

Definition raise {A} (e : exn) : io A := fun _ => Raise e.

Notation "x <- m ;; f" := (bind m (fun x => f))
  (at level 61, m at next level, right associativity).

(** [input(prompt)] *)
Definition input : io string :=
  fun lines =>
    match lines with
    | [] => Raise EOFError
    | v :: rest => Ok v rest
    end.

(** A value that must not be [None] where it is used. *)
Definition expect {A} (o : option A) : io A :=
  match o with
  | Some a => ret a
  | None => raise TypeError
  end.

Record user : Type := Build_user {
  user_sex : string;
  user_age : Z;
  user_weight : float;
  user_height : float;
  user_body_fat : option float;
  user_activity : string;
  user_goal : string;
  user_menstruating : bool;
  user_pregnant : bool;
  user_breastfeeding : bool;
  user_notes : string
}.

(** What [main] computes and hands to the printing code, with the figures
    [pretty_print_results] derives from them. *)
Record report : Type := Build_report {
  report_user : user;
  report_bmr : float;
  report_tdee : float;
  report_macros : macros;
  report_micro : dict entry;
  report_lbm : option float;
  report_fat_g : float;
  report_carbs_g : num
}.

(** Lean body mass, printed when the body fat is known. *)
Definition lbm (weight body_fat : float) : float :=
  (weight * (1 - body_fat / 100.0))%float.

Section UserInput.
Variables strip lower : string -> string.
Variable py_int : string -> option Z.
Variable py_float : string -> option float.

(** [str(v)] of a string. *)
Definition py_str (v : string) : option string := Some v.

(** [input_or_default(prompt, default, cast)]: [default] is [None] for
    Python's [None]; so is the result. *)
Definition input_or_default {A} (default : option A)
    (cast : string -> option A) : io (option A) :=
  v <- input ;;
  if (strip v =? "")
     && match default with Some _ => true | None => false end
  then ret default
  else match cast v with
       | Some x => ret (Some x)
       | None => ret default
       end.

(** [get_user_data()].  Every call passes a default that is not [None],
    so no answer is [None]; [expect] makes this explicit. *)
Definition get_user_data : io user :=
  sex <- input_or_default (Some "male") py_str ;;
  sex <- expect sex ;;
  let sex := lower (strip sex) in
  age <- input_or_default (Some 30%Z) py_int ;;
  age <- expect age ;;
  weight <- input_or_default (Some 70.0%float) py_float ;;
  weight <- expect weight ;;
  height <- input_or_default (Some 175.0%float) py_float ;;
  height <- expect height ;;
  body_fat <- input_or_default (Some "") py_str ;;
  body_fat <- expect body_fat ;;
  let body_fat := if body_fat =? "" then None else py_float body_fat in
  activity <- input_or_default (Some "light") py_str ;;
  activity <- expect activity ;;
  goal <- input_or_default (Some "maintain") py_str ;;
  goal <- expect goal ;;
  flags <- (if sex =? "female"
            then
              m <- input_or_default (Some "yes") py_str ;;
              m <- expect m ;;
              p <- input_or_default (Some "no") py_str ;;
              p <- expect p ;;
              b <- input_or_default (Some "no") py_str ;;
              b <- expect b ;;
              ret (lower (strip m) =? "yes",
                   lower (strip p) =? "yes",
                   lower (strip b) =? "yes")
            else ret (false, false, false)) ;;
  notes <- input_or_default (Some "") py_str ;;
  notes <- expect notes ;;
  ret {| user_sex := sex;
         user_age := age;
         user_weight := weight;
         user_height := height;
         user_body_fat := body_fat;
         user_activity := activity;
         user_goal := goal;
         user_menstruating := fst (fst flags);
         user_pregnant := snd (fst flags);
         user_breastfeeding := snd flags;
         user_notes := notes |}.

(** The value [get_user_data] keeps for the answer [v] to a question with
    the default [d]: the default for a blank line or one that [cast]
    rejects. *)
Definition answer {A} (d : A) (cast : string -> option A) (v : string) : A :=
  if strip v =? "" then d
  else match cast v with
       | Some x => x
       | None => d
       end.

(** [main()]: the profile, then the four computations; [calc_bmr] may
    raise [OverflowError]. *)
Definition main : io report :=
  user <- get_user_data ;;
  match calc_bmr (user_sex user) (user_weight user) (user_height user)
                 (user_age user) with
  | None => raise OverflowError
  | Some bmr =>
      let tdee := calc_tdee bmr (user_activity user) (user_goal user) in
      let macros := calc_macros (user_weight user) (user_activity user)
                                (user_goal user) in
      let micro := base_micronutrient_table
                     (user_sex user) (user_age user) (user_menstruating user)
                     (user_pregnant user) (user_breastfeeding user) in
      ret {| report_user := user;
             report_bmr := bmr;
             report_tdee := tdee;
             report_macros := macros;
             report_micro := micro;
             report_lbm := option_map (lbm (user_weight user))
                                      (user_body_fat user);
             report_fat_g := fat_g tdee;
             report_carbs_g := carbs_g tdee (protein_g_per_day macros) |}
  end.
(** The profile built from the seven answers every user gives, the three
    flags and the notes. *)
Definition profile (l1 l2 l3 l4 l5 l6 l7 : string) (flags : bool * bool * bool)
    (notes : string) : user :=
  {| user_sex := lower (strip (answer "male" py_str l1));
     user_age := answer 30%Z py_int l2;
     user_weight := answer 70.0%float py_float l3;
     user_height := answer 175.0%float py_float l4;
     user_body_fat :=
       (let body_fat := answer "" py_str l5 in
        if body_fat =? "" then None else py_float body_fat);
     user_activity := answer "light" py_str l6;
     user_goal := answer "maintain" py_str l7;
     user_menstruating := fst (fst flags);
     user_pregnant := snd (fst flags);
     user_breastfeeding := snd flags;
     user_notes := answer "" py_str notes |}.

Definition said_yes (v : string) : bool :=
  lower (strip (answer "yes" py_str v)) =? "yes".

Definition said_yes_no (v : string) : bool :=
  lower (strip (answer "no" py_str v)) =? "yes".

End UserInput.

(** The profile when every question is answered with a blank line. *)
Definition default_user : user :=
  {| user_sex := "male";
     user_age := 30;
     user_weight := 70.0%float;
     user_height := 175.0%float;
     user_body_fat := None;
     user_activity := "light";
     user_goal := "maintain";
     user_menstruating := false;
     user_pregnant := false;
     user_breastfeeding := false;
     user_notes := "" |}.


(** * Properties *)

(** ** Dictionaries: assignment and key sets *)

Section DictFacts.
Context {V : Type}.
Implicit Types (d : dict V) (k : string) (v : V).

Lemma keys_dict_set_present d k v :
  In k (keys d) -> keys (dict_set d k v) = keys d.
Proof.
  induction d as [|[k' v'] d IH]; simpl; [tauto|].
  intros Hin. destruct (String.eqb_spec k' k) as [->|Hne]; [reflexivity|].
  simpl. f_equal. apply IH. destruct Hin as [Heq|Hin]; [contradiction|exact Hin].
Qed.

Lemma keys_assign_present (kvs : list (string * V)) d :
  (forall kv, In kv kvs -> In (fst kv) (keys d)) ->
  keys (assign d kvs) = keys d.
Proof.
  revert d. induction kvs as [|[k v] kvs IH]; intros d Hall; [reflexivity|].
  unfold assign in *. simpl.
  assert (Hk : keys (dict_set d k v) = keys d).
  { apply keys_dict_set_present. apply (Hall (k, v)). now left. }
  rewrite IH; [exact Hk|].
  intros kv Hin. rewrite Hk. apply Hall. now right.
Qed.

Lemma dict_get_set_same d k v : dict_get (dict_set d k v) k = Some v.
Proof.
  induction d as [|[k' v'] d IH]; simpl.
  - now rewrite String.eqb_refl.
  - destruct (String.eqb_spec k' k) as [->|Hne]; simpl.
    + now rewrite String.eqb_refl.
    + destruct (String.eqb_spec k' k); [contradiction|exact IH].
Qed.

Lemma dict_get_set_other d k k' v :
  k <> k' -> dict_get (dict_set d k v) k' = dict_get d k'.
Proof.
  intros Hne. induction d as [|[k0 v0] d IH]; simpl.
  - destruct (String.eqb_spec k k'); [contradiction|reflexivity].
  - destruct (String.eqb_spec k0 k) as [->|Hne0]; simpl.
    + destruct (String.eqb_spec k k'); [contradiction|reflexivity].
    + now rewrite IH.
Qed.
Lemma dict_get_assign_other (kvs : list (string * V)) d k :
  ~ In k (map fst kvs) -> dict_get (assign d kvs) k = dict_get d k.
Proof.
  revert d. induction kvs as [|[k0 v0] kvs IH]; intros d Hk; [reflexivity|].
  unfold assign in *. simpl in *.
  rewrite IH by tauto. apply dict_get_set_other. tauto.
Qed.

End DictFacts.

(** ** The micronutrient table *)

(** The table before the three adjustment blocks. *)
Lemma base_table_keys sex age :
  keys (base_micronutrient_table sex age false false false) = nutrient_keys.
Proof.
  unfold base_micronutrient_table. simpl andb. cbv iota.
  destruct (sex =? "male"); reflexivity.
Qed.

Lemma adjustments_in_keys (adj : list (string * entry)) :
  In adj [menstruating_adjustments; pregnant_adjustments;
          breastfeeding_adjustments] ->
  forall kv, In kv adj -> In (fst kv) nutrient_keys.
Proof.
  intros Hadj kv Hkv. simpl in Hadj.
  destruct Hadj as [<-|[<-|[<-|[]]]]; simpl in Hkv;
    repeat (destruct Hkv as [<-|Hkv]; [simpl; tauto|]); destruct Hkv.
Qed.

(** C9: whatever the sex, the age and the three flags, the table has the
    same nutrient names (those of the male base table, which are those of
    the female base table): an adjustment block only replaces the row of
    a name that is already there, it removes no name and leaves the rows
    of the names it does not assign as they were. *)
Theorem micronutrient_keys_fixed sex age menstruating pregnant breastfeeding :
  keys (base_micronutrient_table sex age menstruating pregnant breastfeeding)
  = nutrient_keys
  /\ keys (base_micronutrient_table "male" age false false false)
     = keys (base_micronutrient_table "female" age false false false)
  /\ (forall (d : dict entry) (adj : list (string * entry)),
        keys d = nutrient_keys ->
        In adj [menstruating_adjustments; pregnant_adjustments;
                breastfeeding_adjustments] ->
        keys (assign d adj) = keys d
        /\ (forall k, ~ In k (map fst adj) ->
               dict_get (assign d adj) k = dict_get d k)).
Proof.
  assert (Hadj : forall (adj : list (string * entry)) (d : dict entry),
             In adj [menstruating_adjustments; pregnant_adjustments;
                     breastfeeding_adjustments] ->
             keys d = nutrient_keys -> keys (assign d adj) = keys d).
  { intros adj d Hin Hd. apply keys_assign_present.
    intros kv Hkv. rewrite Hd. now apply (adjustments_in_keys adj). }
  split; [|split].
  - pose proof (base_table_keys sex age) as Hbase.
    unfold base_micronutrient_table in *. simpl andb in Hbase. cbv iota in Hbase.
    cbv zeta in *.
    set (d0 := if sex =? "male" then assign _ male_minerals else _) in *.
    set (d1 := if menstruating && _ then _ else d0).
    assert (H1 : keys d1 = nutrient_keys).
    { subst d1. destruct (menstruating && _); [|exact Hbase].
      rewrite Hadj; [exact Hbase|simpl; tauto|exact Hbase]. }
    set (d2 := if pregnant && _ then _ else d1).
    assert (H2 : keys d2 = nutrient_keys).
    { subst d2. destruct (pregnant && _); [|exact H1].
      rewrite Hadj; [exact H1|simpl; tauto|exact H1]. }
    destruct (breastfeeding && _); [|exact H2].
    rewrite Hadj; [exact H2|simpl; tauto|exact H2].
  - reflexivity.
  - intros d adj Hd Hin. split; [now apply Hadj|].
    intros k Hk. now apply dict_get_assign_other.
Qed.

Lemma micronutrient_keys_fixed_witness :
  keys (assign (base_micronutrient_table "female" 30 false false false)
               pregnant_adjustments) = nutrient_keys
  /\ dict_get (assign (base_micronutrient_table "female" 30 false false false)
                      pregnant_adjustments) "Zinc"
     = Some (PyInt 8, "mg", "").
Proof.
  destruct (micronutrient_keys_fixed "female" 30 false false false)
    as (Hkeys & _ & Hadj).
  destruct (Hadj (base_micronutrient_table "female" 30 false false false)
                 pregnant_adjustments Hkeys) as [Hk Hget].
  - simpl. tauto.
  - split; [now rewrite Hk|].
    rewrite Hget; [reflexivity|].
    simpl. intros [H|[H|[H|[H|[H|[]]]]]]; discriminate H.
Defined.

(** C10: for a sex other than the literal female (male and any other
    string), the three flags are ignored: two calls that differ only in
    the flags return the same table. *)
Theorem flags_ignored_unless_female sex age m1 p1 b1 m2 p2 b2 :
  sex <> "female" ->
  base_micronutrient_table sex age m1 p1 b1
  = base_micronutrient_table sex age m2 p2 b2.
Proof.
  intros Hsex. apply String.eqb_neq in Hsex.
  unfold base_micronutrient_table. rewrite Hsex, !andb_false_r. reflexivity.
Qed.

Lemma flags_ignored_unless_female_witness :
  base_micronutrient_table "male" 30 true true true
  = base_micronutrient_table "male" 30 false false false.
Proof.
  apply flags_ignored_unless_female. discriminate.
Defined.

(** C4: for the sex female with both pregnant and breastfeeding set, the
    breastfeeding block runs after the pregnancy block, so its rows stand:
    Iron 9 mg (not 27), Folate 500 µg DFE, Iodine 290 µg. *)
Theorem breastfeeding_after_pregnancy age menstruating :
  let t := base_micronutrient_table "female" age menstruating true true in
  t = assign (base_micronutrient_table "female" age menstruating true false)
             breastfeeding_adjustments
  /\ dict_get t "Iron"
     = Some (PyInt 9, "mg", "Postpartum needs lower than pregnancy")
  /\ dict_get t "Folate (B9)"
     = Some (PyInt 500, "µg DFE", "Lactation increased need")
  /\ dict_get t "Iodine"
     = Some (PyInt 290, "µg", "Lactation increased need")
  /\ dict_get (base_micronutrient_table "female" age menstruating true false)
              "Iron"
     = Some (PyInt 27, "mg", "Pregnancy increased need").
Proof.
  destruct menstruating; repeat split; reflexivity.
Qed.

(** C2, as stated, fails: a sex that is neither male nor female gets the
    female base table, but the adjustment blocks test for the literal
    female, so with pregnant set Iron stays at 18 mg and Folate at 400. *)
Lemma pregnancy_override_needs_literal_female :
  ~ (forall sex age menstruating breastfeeding,
        sex <> "male" ->
        let t := base_micronutrient_table sex age menstruating true
                                          breastfeeding in
        (exists note, dict_get t "Iron" = Some (PyInt 27, "mg", note))
        /\ (exists note,
               dict_get t "Folate (B9)" = Some (PyInt 600, "µg DFE", note))).
Proof.
  intros H.
  destruct (H "other" 30%Z false false) as [[note Hiron] _]; [discriminate|].
  vm_compute in Hiron. discriminate.
Qed.

(** C2, amended: the adjustment blocks apply, each when its flag is true,
    for the sex female exactly.  With pregnant set and breastfeeding not
    set the table has Iron 27 mg and Folate 600 µg DFE; the table is the
    one without the flag followed by the block's assignments.  For any
    other sex that is not male the table is the female base table whatever
    the flags. *)
Theorem overrides_apply_for_female sex age menstruating pregnant breastfeeding :
  sex <> "male" ->
  let t := base_micronutrient_table sex age menstruating pregnant
                                    breastfeeding in
  (sex = "female" ->
     (menstruating = true ->
        base_micronutrient_table sex age menstruating false false
        = assign (base_micronutrient_table sex age false false false)
                 menstruating_adjustments)
     /\ (pregnant = true ->
           base_micronutrient_table sex age menstruating pregnant false
           = assign (base_micronutrient_table sex age menstruating false false)
                    pregnant_adjustments)
     /\ (breastfeeding = true ->
           t = assign (base_micronutrient_table sex age menstruating pregnant
                                                false)
                      breastfeeding_adjustments)
     /\ (pregnant = true -> breastfeeding = false ->
           dict_get t "Iron"
           = Some (PyInt 27, "mg", "Pregnancy increased need")
           /\ dict_get t "Folate (B9)"
              = Some (PyInt 600, "µg DFE", "Pregnancy increased need")))
  /\ (sex <> "female" ->
        t = base_micronutrient_table "female" age false false false).
Proof.
  intros Hmale t. split.
  - intros ->. subst t. split; [|split; [|split]].
    + intros ->. reflexivity.
    + intros ->. destruct menstruating; reflexivity.
    + intros ->. destruct menstruating, pregnant; reflexivity.
    + intros -> ->. destruct menstruating; split; reflexivity.
  - intros Hfemale. subst t.
    apply String.eqb_neq in Hmale, Hfemale.
    unfold base_micronutrient_table.
    rewrite Hmale, Hfemale, !andb_false_r. reflexivity.
Qed.

Lemma overrides_apply_for_female_witness :
  dict_get (base_micronutrient_table "female" 30 false true false) "Iron"
  = Some (PyInt 27, "mg", "Pregnancy increased need")
  /\ dict_get (base_micronutrient_table "female" 30 false true false)
              "Folate (B9)"
     = Some (PyInt 600, "µg DFE", "Pregnancy increased need").
Proof.
  assert (Hne : "female" <> "male") by discriminate.
  destruct (overrides_apply_for_female "female" 30 false true false Hne)
    as [Hfemale _].
  destruct (Hfemale eq_refl) as (_ & _ & _ & Hpregnant).
  exact (Hpregnant eq_refl eq_refl).
Defined.

(** ** Binary64 arithmetic: facts used below *)

Local Open Scope float_scope.


Lemma SFmul_comm x y : SF64mul x y = SF64mul y x.
Proof.
  unfold SF64mul.
  destruct x as [sx|sx| |sx mx ex], y as [sy|sy| |sy my ey]; simpl;
    try reflexivity; rewrite (xorb_comm sx sy); try reflexivity.
  now rewrite (Pos.mul_comm mx my), (Z.add_comm ex ey).
Qed.

Lemma mul_comm (x y : float) : x * y = y * x.
Proof. apply Prim2SF_inj. rewrite !mul_spec. apply SFmul_comm. Qed.

Lemma ltb_leb (x y : float) : (x <? y) = true -> (x <=? y) = true.
Proof.
  rewrite ltb_spec, leb_spec. unfold SFltb, SFleb.
  destruct (SFcompare (Prim2SF x) (Prim2SF y)) as [[ | | ]|];
    (reflexivity || discriminate).
Qed.


Lemma iter_pos_invariant {A} (P : A -> Prop) (f : A -> A) :
  (forall x, P x -> P (f x)) -> forall n x, P x -> P (iter_pos f n x).
Proof.
  intros Hf. induction n as [n IH|n IH|]; intros x Hx; simpl; auto.
Qed.

Lemma shr_1_nonneg mrs : (0 <= shr_m mrs)%Z -> (0 <= shr_m (shr_1 mrs))%Z.
Proof.
  destruct mrs as [m r s]. simpl.
  destruct m as [|[p|p|]|[p|p|]]; simpl; lia.
Qed.

Lemma shr_fexp_nonneg m e l :
  (0 <= m)%Z -> (0 <= shr_m (fst (shr_fexp prec emax m e l)))%Z.
Proof.
  intros Hm. unfold shr_fexp, shr.
  assert (H0 : (0 <= shr_m (shr_record_of_loc m l))%Z)
    by (destruct l as [|[ | | ]]; exact Hm).
  destruct (fexp prec emax (Zdigits2 m + e) - e)%Z; simpl; try exact H0.
  apply (iter_pos_invariant (fun r => (0 <= shr_m r)%Z)); auto using shr_1_nonneg.
Qed.

Lemma round_nearest_even_nonneg m l :
  (0 <= m)%Z -> (0 <= round_nearest_even m l)%Z.
Proof.
  intros Hm. destruct l as [|[ | | ]]; simpl; try lia.
  destruct (Z.even m); lia.
Qed.

Lemma binary_round_aux_signed s m e l :
  (0 <= m)%Z -> SFsigned s (binary_round_aux prec emax s m e l).
Proof.
  intros Hm. unfold binary_round_aux.
  pose proof (shr_fexp_nonneg m e l Hm) as H1.
  destruct (shr_fexp prec emax m e l) as [mrs' e']. simpl in H1.
  pose proof (shr_fexp_nonneg _ e' loc_Exact
                (round_nearest_even_nonneg _ (loc_of_shr_record mrs') H1)) as H2.
  destruct (shr_fexp prec emax _ e' loc_Exact) as [mrs'' e'']. simpl in H2.
  destruct (shr_m mrs'') as [|p|p]; [reflexivity| |lia].
  destruct (e'' <=? emax - prec)%Z; reflexivity.
Qed.


Lemma SFsigned_nonneg r : SFsigned false r -> SFnonneg r = true.
Proof. destruct r as [s|s| |s m e]; simpl; intros H; subst; easy. Qed.

(** A product of a non-negative float and a positive finite one is
    non-negative (possibly zero or infinite). *)
Lemma SFmul_nonneg x mc ec :
  SFnonneg x = true -> SFnonneg (SF64mul x (S754_finite false mc ec)) = true.
Proof.
  destruct x as [s|s| |s m e]; unfold SFnonneg; simpl; try easy.
  - now destruct s.
  - destruct s; [discriminate|]. intros _.
    apply SFsigned_nonneg, binary_round_aux_signed. lia.
Qed.

Lemma mul_nonneg (x c : float) :
  (0 <=? x) = true -> (0 <? c) = true -> (c <? infinity) = true ->
  (0 <=? x * c) = true.
Proof.
  rewrite !leb_spec, !ltb_spec, mul_spec.
  change (Prim2SF 0) with (S754_zero false).
  change (Prim2SF infinity) with (S754_infinity false).
  intros Hx Hc Hfin.
  destruct (Prim2SF c) as [s|s| |s mc ec]; try discriminate.
  - now destruct s.
  - destruct s; [discriminate|]. now apply SFmul_nonneg.
Qed.

(** *** Exact differences

    When two finite floats differ by exactly 166 as real numbers, their
    float difference is the float 166: the subtraction aligns the two
    mantissas, subtracts them as integers, and the rounding of 83 x 2^n
    is exact. *)

Section Exact166.
Local Open Scope Z_scope.

Lemma digits2_pos_bounds m :
  2 ^ (Zpos (digits2_pos m) - 1) <= Zpos m < 2 ^ Zpos (digits2_pos m).
Proof.
  induction m as [m IH|m IH|]; simpl digits2_pos;
    rewrite ?Pos2Z.inj_succ; [| |simpl; lia].
  - replace (Z.succ (Zpos (digits2_pos m)) - 1) with (Z.succ (Zpos (digits2_pos m) - 1)) by lia.
    rewrite !Z.pow_succ_r by lia. lia.
  - replace (Z.succ (Zpos (digits2_pos m)) - 1) with (Z.succ (Zpos (digits2_pos m) - 1)) by lia.
    rewrite !Z.pow_succ_r by lia. lia.
Qed.

Lemma shiftl_nat_Z p n : Zpos (Pos.shiftl_nat p n) = Zpos p * 2 ^ Z.of_nat n.
Proof.
  induction n as [|n IH]; [simpl; lia|].
  rewrite Nat2Z.inj_succ, Z.pow_succ_r by lia.
  change (Pos.shiftl_nat p (S n)) with (xO (Pos.shiftl_nat p n)). lia.
Qed.

Lemma digits2_pos_shiftl_nat p n :
  Zpos (digits2_pos (Pos.shiftl_nat p n)) = Zpos (digits2_pos p) + Z.of_nat n.
Proof.
  induction n as [|n IH]; [simpl; lia|].
  change (Pos.shiftl_nat p (S n)) with (xO (Pos.shiftl_nat p n)).
  simpl digits2_pos. lia.
Qed.

Lemma iter_pos_nat {A} (f : A -> A) p x :
  iter_pos f p x = Nat.iter (Pos.to_nat p) f x.
Proof.
  revert x. induction p as [p IH|p IH|]; intros x; simpl iter_pos.
  - rewrite !IH, Pos2Nat.inj_xI. 
    replace (S (2 * Pos.to_nat p))%nat with (Pos.to_nat p + (Pos.to_nat p + 1))%nat by lia.
    rewrite !Nat.iter_add. reflexivity.
  - rewrite !IH, Pos2Nat.inj_xO.
    replace (2 * Pos.to_nat p)%nat with (Pos.to_nat p + Pos.to_nat p)%nat by lia.
    now rewrite Nat.iter_add.
  - reflexivity.
Qed.

Lemma iter_shr_1_exact n q :
  Nat.iter n shr_1 {| shr_m := Zpos (Pos.shiftl_nat q n); shr_r := false; shr_s := false |}
  = {| shr_m := Zpos q; shr_r := false; shr_s := false |}.
Proof.
  induction n as [|n IH]; [reflexivity|].
  rewrite Nat.iter_succ_r.
  change (Pos.shiftl_nat q (S n)) with (xO (Pos.shiftl_nat q n)). exact IH.
Qed.

Lemma shr_exact q e n :
  shr {| shr_m := Zpos (Pos.shiftl_nat q n); shr_r := false; shr_s := false |} e (Z.of_nat n)
  = ({| shr_m := Zpos q; shr_r := false; shr_s := false |}, e + Z.of_nat n).
Proof.
  destruct n as [|n].
  - simpl. now rewrite Z.add_0_r.
  - change (Z.of_nat (S n)) with (Zpos (Pos.of_succ_nat n)).
    cbv beta iota delta [shr].
    now rewrite iter_pos_nat, SuccNat2Pos.id_succ, iter_shr_1_exact.
Qed.

Lemma normalize_166 n :
  binary_normalize prec emax (Zpos (Pos.shiftl_nat 83 n)) (1 - Z.of_nat n) false = SF166.
Proof.
  unfold binary_normalize, binary_round.
  rewrite digits2_pos_shiftl_nat.
  change (Zpos (digits2_pos 83)) with 7.
  replace (7 + Z.of_nat n + (1 - Z.of_nat n)) with 8 by lia.
  change (fexp prec emax 8) with (-45).
  destruct (Nat.lt_ge_cases n 46) as [Hlt|Hge].
  - do 46 (destruct n as [|n]; [vm_compute; reflexivity|]). lia.
  - assert (Hk : exists k, n = (k + 46)%nat) by (exists (n - 46)%nat; lia).
    destruct Hk as [k ->]. clear Hge.
    unfold shl_align.
    replace (-45 - (1 - Z.of_nat (k + 46))) with (Z.of_nat k) by lia.
    assert (Hal : match Z.of_nat k with
                  | Z.neg d => (Pos.iter xO (Pos.shiftl_nat 83 (k + 46)) d, -45)
                  | _ => (Pos.shiftl_nat 83 (k + 46), 1 - Z.of_nat (k + 46))
                  end = (Pos.shiftl_nat 83 (k + 46), 1 - Z.of_nat (k + 46)))
      by (destruct (Z.of_nat k) eqn:E; try reflexivity; lia).
    rewrite Hal. clear Hal.
    unfold binary_round_aux.
    assert (Hshr : shr_fexp prec emax (Zpos (Pos.shiftl_nat 83 (k + 46))) (1 - Z.of_nat (k + 46)) loc_Exact
                   = ({| shr_m := 5840605766746112; shr_r := false; shr_s := false |}, -45)).
    { unfold shr_fexp. cbv beta iota delta [Zdigits2]. rewrite digits2_pos_shiftl_nat.
      change (Zpos (digits2_pos 83)) with 7.
      replace (7 + Z.of_nat (k + 46) + (1 - Z.of_nat (k + 46))) with 8 by lia.
      change (fexp prec emax 8) with (-45).
      replace (-45 - (1 - Z.of_nat (k + 46))) with (Z.of_nat k) by lia.
      simpl shr_record_of_loc.
      replace (Pos.shiftl_nat 83 (k + 46)) with (Pos.shiftl_nat 5840605766746112 k).
      2:{ apply Pos2Z.inj. rewrite !shiftl_nat_Z, Nat2Z.inj_add, Z.pow_add_r by lia.
          change (2 ^ Z.of_nat 46) with 70368744177664. lia. }
      rewrite shr_exact. f_equal. lia. }
    rewrite Hshr. vm_compute. reflexivity.
Qed.

Lemma bounded_exponent m e :
  bounded prec emax m e = true ->
  Z.max (Zpos (digits2_pos m) + e - 53) (-1074) = e.
Proof.
  unfold bounded, canonical_mantissa. intros H.
  apply andb_prop in H. destruct H as [H _]. apply Z.eqb_eq in H. exact H.
Qed.

Lemma units_166_unique m e :
  bounded prec emax m e = true ->
  Zpos m * 2 ^ (e + 1074) = 166 * 2 ^ 1074 ->
  m = 5840605766746112%positive /\ e = -45.
Proof.
  intros Hb Hv. apply bounded_exponent in Hb.
  pose proof (digits2_pos_bounds m) as [Hlo Hhi].
  set (d := Zpos (digits2_pos m)) in *.
  assert (Hd : 0 < d) by (subst d; lia).
  assert (HE : 0 <= e + 1074) by lia.
  assert (Hsum : d + e = 8).
  { assert (H1 : 2 ^ (d - 1 + (e + 1074)) < 2 ^ 1082).
    { rewrite Z.pow_add_r by lia.
      apply Z.le_lt_trans with (Zpos m * 2 ^ (e + 1074)).
      - apply Z.mul_le_mono_nonneg_r; [apply Z.pow_nonneg; lia|exact Hlo].
      - rewrite Hv. change (2 ^ 1082) with (256 * 2 ^ 1074).
        apply Z.mul_lt_mono_pos_r; [apply Z.pow_pos_nonneg; lia|lia]. }
    assert (H2 : 2 ^ 1081 < 2 ^ (d + (e + 1074))).
    { rewrite Z.pow_add_r by lia.
      apply Z.le_lt_trans with (Zpos m * 2 ^ (e + 1074)).
      - rewrite Hv. change (2 ^ 1081) with (128 * 2 ^ 1074).
        apply Z.mul_le_mono_nonneg_r; [apply Z.pow_nonneg; lia|lia].
      - apply Z.mul_lt_mono_pos_r; [apply Z.pow_pos_nonneg; lia|exact Hhi]. }
    apply Z.pow_lt_mono_r_iff in H1; [|lia|lia].
    apply Z.pow_lt_mono_r_iff in H2; [|lia|lia]. lia. }
  assert (He : e = -45) by lia. split; [|exact He]. subst e.
  change (-45 + 1074) with 1029 in Hv.
  change (2 ^ 1074) with (2 ^ 45 * 2 ^ 1029) in Hv.
  rewrite Z.mul_assoc in Hv.
  apply Z.mul_reg_r in Hv; [|apply Z.pow_nonzero; lia].
  apply Pos2Z.inj. rewrite Hv. reflexivity.
Qed.

Lemma shl_align_fst m e ez :
  ez <= e -> Zpos (fst (shl_align m e ez)) = Zpos m * 2 ^ (e - ez).
Proof.
  intros Hle. unfold shl_align.
  destruct (ez - e) as [|d|d] eqn:Hd; simpl fst.
  - replace (e - ez) with 0 by lia. simpl. lia.
  - lia.
  - rewrite Pos2Nat.inj_iter.
    change (nat_rect (fun _ => positive) m (fun _ => xO) (Pos.to_nat d))
      with (Pos.shiftl_nat m (Pos.to_nat d)).
    rewrite shiftl_nat_Z, positive_nat_Z. f_equal. f_equal. lia.
Qed.

Lemma cond_Zopp_mul s a b : cond_Zopp s (a * b) = cond_Zopp s a * b.
Proof. destruct s; simpl; lia. Qed.

(** An integer multiple of [2^j] equal to [166 * 2^1074] is [83 * 2^n]
    with [j + n = 1075]. *)
Lemma multiple_166 M j :
  0 <= j -> M * 2 ^ j = 166 * 2 ^ 1074 ->
  exists n : nat, M = Zpos (Pos.shiftl_nat 83 n) /\ j - 1074 = 1 - Z.of_nat n.
Proof.
  intros Hj HM.
  change (166 * 2 ^ 1074) with (83 * 2 ^ 1075) in HM.
  destruct (Z.le_gt_cases j 1075) as [Hle|Hgt].
  - exists (Z.to_nat (1075 - j)). rewrite shiftl_nat_Z, Z2Nat.id by lia.
    split; [|lia].
    replace 1075 with ((1075 - j) + j) in HM at 1 by lia.
    rewrite Z.pow_add_r, Z.mul_assoc in HM by lia.
    apply Z.mul_reg_r in HM; [exact HM|apply Z.pow_nonzero; lia].
  - exfalso.
    replace j with (Z.succ (j - 1076) + 1075) in HM by lia.
    rewrite Z.pow_add_r, Z.mul_assoc in HM by lia.
    apply Z.mul_reg_r in HM; [|apply Z.pow_nonzero; lia].
    rewrite Z.pow_succ_r in HM by lia.
    assert (H2 : 2 * (M * 2 ^ (j - 1076)) = 83) by (rewrite <- HM; ring).
    lia.
Qed.

Lemma SFsub_166 a b ua ub :
  valid_binary a = true -> valid_binary b = true ->
  SF2units a = Some ua -> SF2units b = Some ub ->
  ua - ub = 166 * 2 ^ 1074 ->
  SF64sub a b = SF166.
Proof.
  intros Va Vb Ha Hb Hdiff.
  assert (Hpos : 0 < 2 ^ 1074) by (apply Z.pow_pos_nonneg; lia).
  destruct a as [sa|sa| |sa ma ea], b as [sb|sb| |sb mb eb];
    try discriminate; simpl in Ha, Hb;
    injection Ha as <-; injection Hb as <-.
  - lia.
  - (* a is a zero: the difference is the opposite of b *)
    simpl in Vb. pose proof (bounded_exponent _ _ Vb) as He.
    assert (H0 : 0 < 2 ^ (eb + 1074)) by (apply Z.pow_pos_nonneg; lia).
    assert (H1 : 0 < Zpos mb * 2 ^ (eb + 1074)) by (apply Z.mul_pos_pos; lia).
    destruct sb; unfold cond_Zopp in Hdiff; [|lia].
    destruct (units_166_unique mb eb Vb) as [-> ->]; [lia|reflexivity].
  - (* b is a zero: the difference is a *)
    simpl in Va. pose proof (bounded_exponent _ _ Va) as He.
    assert (H0 : 0 < 2 ^ (ea + 1074)) by (apply Z.pow_pos_nonneg; lia).
    assert (H1 : 0 < Zpos ma * 2 ^ (ea + 1074)) by (apply Z.mul_pos_pos; lia).
    destruct sa; unfold cond_Zopp in Hdiff; [lia|].
    destruct (units_166_unique ma ea Va) as [-> ->]; [lia|].
    now destruct sb.
  - simpl in Va, Vb.
    pose proof (bounded_exponent _ _ Va) as Hea.
    pose proof (bounded_exponent _ _ Vb) as Heb.
    unfold SF64sub, SFsub.
    set (ez := Z.min ea eb).
    assert (Hza : ez <= ea) by (subst ez; lia).
    assert (Hzb : ez <= eb) by (subst ez; lia).
    assert (Hz : 0 <= ez + 1074) by (subst ez; lia).
    rewrite (shl_align_fst ma ea ez Hza), (shl_align_fst mb eb ez Hzb).
    rewrite !cond_Zopp_mul.
    set (M := cond_Zopp sa (Zpos ma) * 2 ^ (ea - ez)
              - cond_Zopp sb (Zpos mb) * 2 ^ (eb - ez)).
    assert (HM : M * 2 ^ (ez + 1074) = 166 * 2 ^ 1074).
    { rewrite <- Hdiff. subst M. rewrite Z.mul_sub_distr_r, <- !Z.mul_assoc.
      rewrite <- !Z.pow_add_r by lia.
      replace (ea - ez + (ez + 1074)) with (ea + 1074) by lia.
      replace (eb - ez + (ez + 1074)) with (eb + 1074) by lia. reflexivity. }
    destruct (multiple_166 M (ez + 1074) Hz HM) as (n & -> & Hn).
    replace ez with (1 - Z.of_nat n) by lia.
    apply normalize_166.
Qed.

End Exact166.

Lemma sub_exact_166 (a b : float) ua ub :
  float_units a = Some ua -> float_units b = Some ub ->
  (ua - ub = 166 * 2 ^ 1074)%Z -> a - b = 166.
Proof.
  intros Ha Hb Hdiff. apply Prim2SF_inj. rewrite sub_spec.
  change (Prim2SF 166) with SF166.
  apply (SFsub_166 _ _ ua ub); auto using Prim2SF_valid.
Qed.

(** ** Energy *)

(** C1, as stated, fails: for the male, 30 years, 70 kg, 175 cm profile the
    BMR is not 1673.75 (so the TDEE is not 2301.40625 either). *)
Lemma example_bmr_is_not_1673_75 :
  ~ (exists bmr,
        calc_bmr "male" 70 175 30 = Some bmr
        /\ bmr = 1673.75
        /\ calc_tdee bmr "light" "maintain" = 2301.40625
        /\ calc_macros 70 "light" "maintain"
           = {| protein_g_per_day := 56.0; protein_g_per_kg := 0.8 |}).
Proof.
  intros (bmr & Hbmr & Hval & _). subst bmr.
  apply (f_equal (option_map Prim2SF)) in Hbmr.
  vm_compute in Hbmr. discriminate Hbmr.
Qed.

(** C1, amended: for sex male, age 30, weight 70, height 175, activity
    light, goal maintain, the BMR is 1648.75 (700 + 1093.75 - 150 + 5), the
    TDEE is 2267.03125 (1648.75 x 1.375), and the protein target is 56.0
    g/day at a rate of 0.8 g/kg. *)
Theorem example_male_30_70_175 :
  calc_bmr "male" 70 175 30 = Some 1648.75
  /\ calc_tdee 1648.75 "light" "maintain" = 2267.03125
  /\ 1648.75 * 1.375 = 2267.03125
  /\ calc_macros 70 "light" "maintain"
     = {| protein_g_per_day := 56.0; protein_g_per_kg := 0.8 |}
  /\ base_protein "light" "maintain" = 0.8.
Proof. repeat split; vm_compute; reflexivity. Qed.

(** The activity factor is one of the five table values (1.375 for a name
    that is not in the table): positive and finite. *)
Lemma activity_factor_positive activity :
  let factor := dict_get_default activity_factors activity 1.375 in
  (0 <? factor) = true /\ (factor <? infinity) = true.
Proof.
  cbv beta iota zeta fix delta [dict_get_default activity_factors dict_get].
  repeat match goal with
         | |- context [(?a =? activity)%string] =>
             destruct (a =? activity)%string
         end; split; reflexivity.
Qed.

(** C7: for every BMR and activity, the TDEE for the goal lose is 0.85
    times the TDEE for maintain, the TDEE for gain is 1.10 times it (the
    very same float: the product is the one the code computes, with its
    factors in the other order), and a goal that is neither lose nor gain
    gives the TDEE for maintain. *)
Theorem tdee_goal_ratios bmr activity goal :
  calc_tdee bmr activity "lose" = 0.85 * calc_tdee bmr activity "maintain"
  /\ calc_tdee bmr activity "gain" = 1.10 * calc_tdee bmr activity "maintain"
  /\ (goal <> "lose"%string -> goal <> "gain"%string ->
        calc_tdee bmr activity goal = calc_tdee bmr activity "maintain").
Proof.
  unfold calc_tdee.
  change ("lose" =? "lose")%string with true.
  change ("gain" =? "lose")%string with false.
  change ("gain" =? "gain")%string with true.
  change ("maintain" =? "lose")%string with false.
  change ("maintain" =? "gain")%string with false.
  cbv beta iota zeta. repeat split; try apply mul_comm.
  intros Hlose Hgain. apply String.eqb_neq in Hlose, Hgain.
  now rewrite Hlose, Hgain.
Qed.

Lemma tdee_goal_ratios_witness :
  calc_tdee 1648.75 "light" "cut" = calc_tdee 1648.75 "light" "maintain".
Proof.
  destruct (tdee_goal_ratios 1648.75 "light" "cut") as (_ & _ & Hother).
  apply Hother; discriminate.
Defined.

(** C3, as stated, fails: strictly positive weight, height and age do not
    keep the BMR, and with it the TDEE, from being negative. *)
Lemma tdee_negative_for_small_profile :
  ~ (forall sex weight height age activity goal bmr,
        (0 <? weight) = true -> (0 <? height) = true -> (0 < age)%Z ->
        calc_bmr sex weight height age = Some bmr ->
        (0 <=? calc_tdee bmr activity goal) = true).
Proof.
  intros H.
  specialize (H "female"%string 1 1 1%Z "light"%string "maintain"%string
                (-149.75) eq_refl eq_refl eq_refl eq_refl).
  vm_compute in H. discriminate H.
Qed.

(** C3, amended: no clamp is applied, the TDEE is the BMR times positive
    factors; for every profile, activity and goal, the TDEE is >= 0
    whenever the computed BMR is >= 0. *)
Theorem tdee_nonneg_of_bmr_nonneg sex weight height age activity goal bmr :
  calc_bmr sex weight height age = Some bmr ->
  (0 <=? bmr) = true ->
  (0 <=? calc_tdee bmr activity goal) = true.
Proof.
  intros _ Hbmr. unfold calc_tdee.
  destruct (activity_factor_positive activity) as [Hpos Hfin].
  cbv zeta in *.
  set (factor := dict_get_default activity_factors activity 1.375) in *.
  pose proof (mul_nonneg bmr factor Hbmr Hpos Hfin) as Htdee.
  destruct (goal =? "lose")%string; [now apply mul_nonneg|].
  destruct (goal =? "gain")%string; [now apply mul_nonneg|exact Htdee].
Qed.

Lemma tdee_nonneg_of_bmr_nonneg_witness :
  (0 <=? calc_tdee 1648.75 "light" "maintain") = true.
Proof.
  apply (tdee_nonneg_of_bmr_nonneg "male" 70 175 30 "light" "maintain" 1648.75);
    reflexivity.
Defined.

(** ** Macronutrients *)


Lemma base_protein_spec activity goal :
  base_protein activity goal = protein_rate_spec activity goal.
Proof.
  unfold base_protein, protein_rate_spec. cbv zeta.
  destruct (String.eqb_spec goal "gain") as [->|Hgain]; [reflexivity|].
  reflexivity.
Qed.

Lemma py_max0_nonneg x : num_nonneg (py_max0 x) = true.
Proof.
  unfold py_max0. destruct (0 <? x) eqn:Hx; [|reflexivity].
  simpl. now apply ltb_leb.
Qed.

(** C5: the carbohydrate figure is max(0, (TDEE - protein x 4 - TDEE x
    0.30) / 4), hence never negative, for every TDEE >= 0 and protein >= 0:
    it is that quotient itself when the quotient is greater than 0 and the
    integer 0 otherwise.  With TDEE = 0 and protein = 300 the quotient is
    -300 and the clamp gives 0; with TDEE = 2267.03125 and protein = 56
    the figure is 340.73046875. *)
Theorem carbs_never_negative tdee protein_g :
  (0 <=? tdee) = true -> (0 <=? protein_g) = true ->
  carbs_g tdee protein_g
  = py_max0 ((tdee - protein_g * 4 - tdee * 0.30) / 4)
  /\ num_nonneg (carbs_g tdee protein_g) = true
  /\ carbs_kcal 0 300 / 4 = (-300)
  /\ carbs_g 0 300 = PyInt 0
  /\ ((0 <? (tdee - protein_g * 4 - tdee * 0.30) / 4) = true ->
      carbs_g tdee protein_g
      = PyFloat ((tdee - protein_g * 4 - tdee * 0.30) / 4))
  /\ ((0 <? (tdee - protein_g * 4 - tdee * 0.30) / 4) = false ->
      carbs_g tdee protein_g = PyInt 0)
  /\ carbs_g 2267.03125 56 = PyFloat 340.73046875
  /\ carbs_g 2000 100 = PyFloat 250
  /\ carbs_g 400 70 = PyInt 0.
Proof.
  intros _ _. split; [reflexivity|]. split; [apply py_max0_nonneg|].
  split; [reflexivity|]. split; [reflexivity|].
  split.
  { intros Hpos. unfold carbs_g, carbs_kcal, fat_kcal, py_max0.
    now rewrite Hpos. }
  split.
  { intros Hneg. unfold carbs_g, carbs_kcal, fat_kcal, py_max0.
    now rewrite Hneg. }
  repeat split; vm_compute; reflexivity.
Qed.

Lemma carbs_never_negative_witness :
  (num_nonneg (carbs_g 0 300) = true /\ carbs_g 0 300 = PyInt 0)
  /\ carbs_g 2267.03125 56
     = PyFloat ((2267.03125 - 56 * 4 - 2267.03125 * 0.30) / 4).
Proof.
  split.
  - destruct (carbs_never_negative 0 300 eq_refl eq_refl)
      as (_ & H & _ & H0 & _ & Hzero & _).
    split; [exact H|exact (Hzero eq_refl)].
  - destruct (carbs_never_negative 2267.03125 56 eq_refl eq_refl)
      as (_ & _ & _ & _ & Hpos & _).
    exact (Hpos eq_refl).
Defined.

(** ** The BMR of the two sexes *)

(** C8, as stated, fails: the two BMR values are rounded separately, and
    for a large enough common part their float difference is not 166. *)
Lemma bmr_difference_not_always_166 :
  ~ (forall weight height age bm bf,
        (0 <? weight) = true -> (0 <? height) = true -> (0 < age)%Z ->
        calc_bmr "male" weight height age = Some bm ->
        calc_bmr "female" weight height age = Some bf ->
        bm - bf = 166).
Proof.
  intros H.
  specialize (H 1e16 1 1%Z 1e17 99999999999999840
                eq_refl eq_refl eq_refl eq_refl eq_refl).
  apply (f_equal Prim2SF) in H. vm_compute in H. discriminate H.
Qed.

(** C8, amended: the two formulas share the part x = 10 weight + 6.25
    height - 5 age and differ only in the constant added to it (+5 for
    male, -161 for any other sex); whenever these two additions are exact
    (no rounding), the male BMR minus the other BMR is exactly 166. *)
Theorem bmr_difference_166_when_exact sex weight height age age5 :
  float_of_int (5 * age) = Some age5 ->
  let x := 10 * weight + 6.25 * height - age5 in
  exact_offset x 5 (x + 5) ->
  exact_offset x (-161) (x - 161) ->
  sex <> "male"%string ->
  exists bm bf,
    calc_bmr "male" weight height age = Some bm
    /\ calc_bmr sex weight height age = Some bf
    /\ bm = x + 5 /\ bf = x - 161
    /\ bm - bf = 166.
Proof.
  intros Hage x Hmale Hother Hsex. apply String.eqb_neq in Hsex.
  exists (x + 5), (x - 161). unfold calc_bmr. rewrite Hage, Hsex.
  repeat split.
  unfold exact_offset in Hmale, Hother.
  destruct (float_units x) as [ux|]; [|contradiction].
  destruct (float_units (x + 5)) as [um|] eqn:Hum; [|contradiction].
  destruct (float_units (x - 161)) as [uf|] eqn:Huf; [|contradiction].
  apply (sub_exact_166 _ _ um uf Hum Huf). lia.
Qed.

Lemma bmr_difference_166_when_exact_witness :
  exists bm bf,
    calc_bmr "male" 70 175 30 = Some bm
    /\ calc_bmr "female" 70 175 30 = Some bf
    /\ bm = 1643.75 + 5 /\ bf = 1643.75 - 161
    /\ bm - bf = 166.
Proof.
  apply (bmr_difference_166_when_exact "female" 70 175 30 150 eq_refl).
  - vm_compute. reflexivity.
  - vm_compute. reflexivity.
  - discriminate.
Defined.

(** * Further properties of the code *)

(** ** The micronutrient table, for every sex and flag *)

Local Open Scope string_scope.

(** The sex enters the table through two tests only. *)
Lemma table_by_cases sex age m p b :
  base_micronutrient_table sex age m p b
  = if sex =? "male" then base_micronutrient_table "male" age false false false
    else if sex =? "female" then base_micronutrient_table "female" age m p b
    else base_micronutrient_table "female" age false false false.
Proof.
  destruct (String.eqb_spec sex "male") as [->|Hm].
  - unfold base_micronutrient_table.
    change ("male" =? "female") with false. now rewrite !andb_false_r.
  - destruct (String.eqb_spec sex "female") as [->|Hf]; [reflexivity|].
    apply String.eqb_neq in Hm, Hf.
    unfold base_micronutrient_table. rewrite Hm, Hf, !andb_false_r. reflexivity.
Qed.

Ltac table_cases sex m p b :=
  rewrite (table_by_cases sex);
  destruct (sex =? "male"); [|destruct (sex =? "female"); [destruct m, p, b|]].

Lemma table_keys sex age m p b :
  keys (base_micronutrient_table sex age m p b) = nutrient_keys.
Proof. table_cases sex m p b; reflexivity. Qed.

Section DictLookup.
Context {V : Type}.
Lemma dict_get_none (d : dict V) k : dict_get d k = None <-> ~ In k (keys d).
Proof.
  induction d as [|[k' v'] d IH]; simpl; [tauto|].
  destruct (String.eqb_spec k' k) as [->|Hne].
  - split; [discriminate|]. intros H. exfalso. apply H. now left.
  - rewrite IH. tauto.
Qed.
End DictLookup.

(** X1: for every sex, age and flags the table has 26 rows with distinct
    names; a lookup succeeds exactly for the 26 nutrient names and gives
    [None] for any other key. *)
Theorem table_lookup_total sex age m p b k :
  let t := base_micronutrient_table sex age m p b in
  List.length t = 26%nat
  /\ NoDup (keys t)
  /\ (In k nutrient_keys <-> exists row, dict_get t k = Some row)
  /\ (~ In k nutrient_keys <-> dict_get t k = None).
Proof.
  intros t.
  assert (Hkeys : keys t = nutrient_keys).
  { subst t. table_cases sex m p b; reflexivity. }
  assert (Hnone : dict_get t k = None <-> ~ In k nutrient_keys)
    by (rewrite <- Hkeys; apply dict_get_none).
  split; [|split; [|split]].
  - rewrite <- (length_map fst). fold (keys t). now rewrite Hkeys.
  - rewrite Hkeys. unfold nutrient_keys.
    repeat (constructor; [simpl; intros H;
                          repeat (destruct H as [H|H]; [discriminate H|]);
                          exact H|]).
    constructor.
  - split.
    + intros Hin. destruct (dict_get t k) as [row|]; [now exists row|].
      exfalso. exact (proj1 Hnone eq_refl Hin).
    + intros [row Hrow] . destruct (in_dec string_dec k nutrient_keys) as [|Hn]; [assumption|].
      apply Hnone in Hn. congruence.
  - symmetry. exact Hnone.
Qed.

Lemma units_as_male sex age m p b :
  map (fun kv => (fst kv, row_unit (snd kv)))
      (base_micronutrient_table sex age m p b)
  = map (fun kv => (fst kv, row_unit (snd kv)))
        (base_micronutrient_table "male" 30 false false false).
Proof. table_cases sex m p b; reflexivity. Qed.

(** X2: the unit of each nutrient is the same in every table the
    function can return: sex, age and the flags change values and notes,
    never a unit. *)
Theorem units_fixed sex age m p b sex' age' m' p' b' :
  map (fun kv => (fst kv, row_unit (snd kv)))
      (base_micronutrient_table sex age m p b)
  = map (fun kv => (fst kv, row_unit (snd kv)))
        (base_micronutrient_table sex' age' m' p' b').
Proof. now rewrite (units_as_male sex), (units_as_male sex'). Qed.

(** X3: every amount in every table the function can return is strictly
    positive. *)
Theorem values_positive sex age m p b :
  forallb (fun kv => num_pos (row_value (snd kv))) (base_micronutrient_table sex age m p b) = true.
Proof. table_cases sex m p b; reflexivity. Qed.



(** X5: once breastfeeding is set, the amounts do not depend on the
    menstruating and pregnant flags; for the sex female the pregnant flag
    then only leaves its note on the Calcium row. *)
Theorem breastfeeding_fixes_amounts sex age m p :
  amounts (base_micronutrient_table sex age m p true)
  = amounts (base_micronutrient_table sex age false false true)
  /\ (sex = "female" ->
      base_micronutrient_table sex age m true true
      = dict_set (base_micronutrient_table sex age m false true) "Calcium"
                 (PyInt 1000, "mg", "Pregnancy recommendation")).
Proof.
  split.
  - rewrite (table_by_cases sex age m), (table_by_cases sex age false).
    destruct (sex =? "male"); [reflexivity|].
    destruct (sex =? "female"); [|reflexivity].
    destruct m, p; reflexivity.
  - intros ->. destruct m; reflexivity.
Qed.

Lemma breastfeeding_fixes_amounts_witness :
  dict_get (base_micronutrient_table "female" 30 false true true) "Calcium"
  = Some (PyInt 1000, "mg", "Pregnancy recommendation").
Proof.
  destruct (breastfeeding_fixes_amounts "female" 30 false true) as [_ H].
  rewrite (H eq_refl). apply dict_get_set_same.
Defined.

(** ** Energy and macronutrients: fallbacks, signs, NaN *)

Local Open Scope float_scope.

Lemma str_in_false x l : str_in x l = false -> forall y, In y l -> (y =? x)%string = false.
Proof.
  unfold str_in. intros H y Hy.
  destruct (String.eqb_spec y x) as [->|]; [|reflexivity].
  assert (Ht : existsb (fun y => (x =? y)%string) l = true)
    by (apply existsb_exists; exists x; split; [assumption|apply String.eqb_refl]).
  congruence.
Qed.

(** X6: an activity that is not one of the five names (the comparison
    is exact, so also a name in another case or with a space) gives the
    TDEE of the activity light. *)
Theorem tdee_activity_fallback bmr activity goal :
  str_in activity activity_names = false ->
  calc_tdee bmr activity goal = calc_tdee bmr "light" goal.
Proof.
  intros Hout. unfold calc_tdee.
  assert (Hf : dict_get_default activity_factors activity 1.375 = 1.375).
  { cbv beta iota zeta fix delta [dict_get_default activity_factors dict_get].
    rewrite !(str_in_false _ _ Hout) by (simpl; tauto). reflexivity. }
  rewrite Hf. reflexivity.
Qed.

Lemma tdee_activity_fallback_witness :
  calc_tdee 1648.75 "Moderate" "maintain" = calc_tdee 1648.75 "light" "maintain".
Proof. apply tdee_activity_fallback. reflexivity. Defined.

(** opp *)
Lemma binary_round_aux_opp s m e l :
  binary_round_aux prec emax (negb s) m e l = SFopp (binary_round_aux prec emax s m e l).
Proof.
  unfold binary_round_aux.
  destruct (shr_fexp prec emax m e l) as [mrs' e'].
  destruct (shr_fexp prec emax _ e' loc_Exact) as [mrs'' e''].
  destruct (shr_m mrs''); [reflexivity| |reflexivity].
  destruct (e'' <=? emax - prec)%Z; reflexivity.
Qed.

Lemma SFmul_opp_l x y : SF64mul (SFopp x) y = SFopp (SF64mul x y).
Proof.
  unfold SF64mul.
  destruct x as [sx|sx| |sx mx ex], y as [sy|sy| |sy my ey]; simpl;
    try reflexivity; try (now destruct sx, sy).
  rewrite <- binary_round_aux_opp. now destruct sx, sy.
Qed.

Lemma mul_opp_l (x y : float) : (- x) * y = - (x * y).
Proof.
  apply Prim2SF_inj. rewrite opp_spec, !mul_spec, opp_spec. apply SFmul_opp_l.
Qed.

Lemma calc_tdee_opp bmr activity goal :
  calc_tdee (- bmr) activity goal = - calc_tdee bmr activity goal.
Proof.
  unfold calc_tdee. cbv zeta.
  destruct (goal =? "lose")%string; [now rewrite !mul_opp_l|].
  destruct (goal =? "gain")%string; now rewrite !mul_opp_l.
Qed.

Lemma calc_tdee_nonneg bmr activity goal :
  (0 <=? bmr) = true -> (0 <=? calc_tdee bmr activity goal) = true.
Proof.
  intros Hbmr. unfold calc_tdee.
  destruct (activity_factor_positive activity) as [Hpos Hfin].
  cbv zeta in *.
  set (factor := dict_get_default activity_factors activity 1.375) in *.
  pose proof (mul_nonneg bmr factor Hbmr Hpos Hfin) as Htdee.
  destruct (goal =? "lose")%string; [now apply mul_nonneg|].
  destruct (goal =? "gain")%string; [now apply mul_nonneg|exact Htdee].
Qed.

Lemma leb_opp (x : float) : (x <=? 0) = (0 <=? - x).
Proof.
  rewrite !leb_spec, opp_spec. change (Prim2SF 0) with (S754_zero false).
  destruct (Prim2SF x) as [s|s| |s m e]; try reflexivity; now destruct s.
Qed.

(** X7: the TDEE is an odd function of the BMR (negating the BMR negates
    the TDEE, bit for bit), so a BMR <= 0 gives a TDEE <= 0: no activity
    or goal turns a negative BMR into a positive TDEE. *)
Theorem tdee_sign bmr activity goal :
  calc_tdee (- bmr) activity goal = - calc_tdee bmr activity goal
  /\ ((bmr <=? 0) = true -> (calc_tdee bmr activity goal <=? 0) = true).
Proof.
  split; [apply calc_tdee_opp|].
  rewrite !leb_opp, <- calc_tdee_opp. apply calc_tdee_nonneg.
Qed.

Lemma tdee_sign_witness : (calc_tdee (-149.75) "light" "maintain" <=? 0) = true.
Proof.
  destruct (tdee_sign (-149.75) "light" "maintain") as [_ H].
  exact (H eq_refl).
Defined.

(** NaN *)
Lemma nan_ops (x : float) :
  nan * x = nan /\ x * nan = nan /\ nan + x = nan /\ x + nan = nan
  /\ nan - x = nan /\ x - nan = nan /\ nan / x = nan /\ x / nan = nan.
Proof.
  repeat split; apply Prim2SF_inj;
    rewrite ?mul_spec, ?add_spec, ?sub_spec, ?div_spec;
    change (Prim2SF nan) with S754_nan;
    destruct (Prim2SF x) as [s|s| |s m e]; reflexivity.
Qed.

Lemma some_inj {A} (a b : A) : Some a = Some b -> a = b.
Proof. intros H. now inversion H. Qed.

Lemma py_round_nan n : py_round nan n = nan.
Proof. reflexivity. Qed.

(** X8: a NaN weight gives a NaN BMR, TDEE, protein target and fat
    figure, but the carbohydrate figure is the integer 0: [max(0, nan)]
    hides the NaN. *)
Theorem nan_weight_pipeline sex height age activity goal bmr :
  calc_bmr sex nan height age = Some bmr ->
  let tdee := calc_tdee bmr activity goal in
  let macros := calc_macros nan activity goal in
  bmr = nan /\ tdee = nan
  /\ protein_g_per_day macros = nan
  /\ fat_g tdee = nan
  /\ carbs_g tdee (protein_g_per_day macros) = PyInt 0.
Proof.
  unfold calc_bmr. destruct (float_of_int (5 * age)) as [age5|]; [|discriminate].
  intros H.
  assert (Hb : bmr = nan).
  { destruct (sex =? "male")%string; apply some_inj in H; subst bmr.
    - destruct (nan_ops 10) as (_ & Hm & _). rewrite Hm.
      destruct (nan_ops (6.25 * height)) as (_ & _ & Hadd & _). rewrite Hadd.
      destruct (nan_ops age5) as (_ & _ & _ & _ & Hsub & _). rewrite Hsub.
      now destruct (nan_ops 5) as (_ & _ & Hadd5 & _).
    - destruct (nan_ops 10) as (_ & Hm & _). rewrite Hm.
      destruct (nan_ops (6.25 * height)) as (_ & _ & Hadd & _). rewrite Hadd.
      destruct (nan_ops age5) as (_ & _ & _ & _ & Hsub & _). rewrite Hsub.
      now destruct (nan_ops 161) as (_ & _ & _ & _ & Hsub' & _). }
  subst bmr. clear H.
  assert (Ht : calc_tdee nan activity goal = nan).
  { unfold calc_tdee. cbv zeta.
    destruct (nan_ops (dict_get_default activity_factors activity 1.375)) as (-> & _).
    destruct (goal =? "lose")%string; [now destruct (nan_ops 0.85) as (-> & _)|].
    destruct (goal =? "gain")%string; [now destruct (nan_ops 1.10) as (-> & _)|reflexivity]. }
  cbv zeta. rewrite Ht.
  assert (Hp : protein_g_per_day (calc_macros nan activity goal) = nan).
  { unfold calc_macros. cbv zeta. simpl protein_g_per_day.
    destruct (nan_ops (base_protein activity goal)) as (_ & -> & _). reflexivity. }
  rewrite Hp. repeat split; reflexivity.
Qed.

Lemma nan_weight_pipeline_witness :
  carbs_g (calc_tdee nan "light" "maintain")
          (protein_g_per_day (calc_macros nan "light" "maintain")) = PyInt 0.
Proof.
  destruct (nan_weight_pipeline "male" 175 30 "light" "maintain" nan eq_refl)
    as (_ & _ & _ & _ & H).
  exact H.
Defined.

(** X9: with the goal fixed, the protein rate of an activity outside
    moderate / active / very_active is at most the rate of one of these
    three, before and after the rounding to two decimals, whatever the
    weights. *)
Theorem protein_rate_monotone low high goal weight weight' :
  str_in low high_activity = false ->
  str_in high high_activity = true ->
  (base_protein low goal <=? base_protein high goal) = true
  /\ (protein_g_per_kg (calc_macros weight low goal)
      <=? protein_g_per_kg (calc_macros weight' high goal)) = true.
Proof.
  intros Hlow Hhigh. unfold calc_macros, base_protein, high_activity in *.
  cbv zeta. rewrite Hlow, Hhigh.
  cbv beta iota delta [protein_g_per_kg].
  destruct (goal =? "gain")%string, (goal =? "lose")%string;
    split; vm_compute; reflexivity.
Qed.

Lemma protein_rate_monotone_witness :
  (base_protein "light" "lose" <=? base_protein "active" "lose") = true
  /\ (protein_g_per_kg (calc_macros 60 "light" "lose")
      <=? protein_g_per_kg (calc_macros 90 "active" "lose")) = true.
Proof.
  apply (protein_rate_monotone "light" "active" "lose" 60 90); reflexivity.
Defined.

Lemma binary_round_signed s m e : SFsigned s (binary_round prec emax s m e).
Proof.
  unfold binary_round. destruct (shl_align m e _) as [mz ez].
  apply binary_round_aux_signed. lia.
Qed.

Lemma binary_normalize_nonneg z :
  (0 <= z)%Z -> SFsigned false (binary_normalize prec emax z 0 false).
Proof.
  destruct z as [|p|p]; intros Hz; [reflexivity|apply binary_round_signed|lia].
Qed.

Lemma SFldexp_signed s x e : SFsigned s x -> SFsigned s (SFldexp prec emax x e).
Proof.
  destruct x as [s'|s'| |s' m e']; simpl; auto.
  intros ->. apply binary_round_signed.
Qed.

Lemma SF2Prim_nonneg sf : SFsigned false sf -> (0 <=? SF2Prim sf) = true.
Proof.
  destruct sf as [s|s| |s m e]; simpl; try (intros ->; reflexivity); [tauto|].
  intros ->. rewrite leb_spec, Z_ldexp_spec, of_uint63_spec.
  change (Prim2SF 0) with (S754_zero false).
  apply SFsigned_nonneg, SFldexp_signed, binary_normalize_nonneg.
  apply Uint63.to_Z_bounded.
Qed.

Lemma SFdiv_core_nonneg m1 e1 m2 e2 :
  (0 <= fst (fst (SFdiv_core_binary prec emax (Zpos m1) e1 (Zpos m2) e2)))%Z.
Proof.
  unfold SFdiv_core_binary.
  set (s := (e1 - e2 - _)%Z).
  set (m' := match s with Zpos _ => Z.shiftl (Zpos m1) s | Z0 => Zpos m1 | Zneg _ => 0%Z end).
  assert (Hm' : (0 <= m')%Z).
  { subst m'. destruct s; try lia. apply Z.shiftl_nonneg. lia. }
  destruct (Z.div_eucl m' (Zpos m2)) as [q r] eqn:E. simpl.
  assert (Hq : q = (m' / Zpos m2)%Z) by (unfold Z.div; now rewrite E).
  subst q. apply Z.div_pos; lia.
Qed.

Lemma SFdiv_signed m1 e1 m2 e2 :
  SFsigned false (SF64div (S754_finite false m1 e1) (S754_finite false m2 e2)).
Proof.
  unfold SF64div, SFdiv.
  pose proof (SFdiv_core_nonneg m1 e1 m2 e2) as H.
  destruct (SFdiv_core_binary prec emax (Zpos m1) e1 (Zpos m2) e2) as [[mz ez] lz].
  simpl in H. now apply binary_round_aux_signed.
Qed.

Lemma div_nonneg (x c : float) :
  (0 <=? x) = true -> (0 <? c) = true -> (c <? infinity) = true ->
  (0 <=? x / c) = true.
Proof.
  rewrite !leb_spec, !ltb_spec, div_spec.
  change (Prim2SF 0) with (S754_zero false).
  change (Prim2SF infinity) with (S754_infinity false).
  intros Hx Hc Hfin.
  destruct (Prim2SF c) as [s|s| |s mc ec]; try discriminate;
    [now destruct s|].
  destruct s; [discriminate|].
  destruct (Prim2SF x) as [s|s| |s m e]; try discriminate.
  - now destruct s.
  - now destruct s.
  - destruct s; [discriminate|]. apply SFsigned_nonneg, SFdiv_signed.
Qed.

Lemma py_round_nonneg x n : (0 <=? x) = true -> (0 <=? py_round x n) = true.
Proof.
  intros Hx. pose proof Hx as Hx'. rewrite leb_spec in Hx'.
  change (Prim2SF 0) with (S754_zero false) in Hx'.
  unfold py_round.
  destruct (Prim2SF x) as [s|s| |s m e]; try exact Hx.
  destruct s; [discriminate|]. cbv zeta.
  match goal with |- context [match ?n with Z0 => _ | Zpos _ => _ | Zneg _ => _ end] =>
    destruct n as [|n'|n'] end; try reflexivity.
  apply SF2Prim_nonneg, SFdiv_signed.
Qed.

Lemma base_protein_positive activity goal :
  (0 <? base_protein activity goal) = true
  /\ (base_protein activity goal <? infinity) = true
  /\ (0 <? py_round (base_protein activity goal) 2) = true.
Proof.
  unfold base_protein. cbv zeta.
  destruct (str_in activity _), (goal =? "gain")%string, (goal =? "lose")%string;
    repeat split; vm_compute; reflexivity.
Qed.

(** X10: for a weight >= 0 and a TDEE >= 0, the protein target, the fat
    energy, the fat grams and the carbohydrate grams are all >= 0, and
    the reported protein rate is > 0. *)
Theorem macro_targets_nonneg weight tdee activity goal :
  (0 <=? weight) = true -> (0 <=? tdee) = true ->
  let m := calc_macros weight activity goal in
  (0 <=? protein_g_per_day m) = true
  /\ (0 <? protein_g_per_kg m) = true
  /\ (0 <=? fat_kcal tdee) = true
  /\ (0 <=? fat_g tdee) = true
  /\ num_nonneg (carbs_g tdee (protein_g_per_day m)) = true.
Proof.
  intros Hw Ht m.
  destruct (base_protein_positive activity goal) as (Hpos & Hfin & Hkg).
  assert (Hfat : (0 <=? fat_kcal tdee) = true)
    by (apply mul_nonneg; [exact Ht|reflexivity|reflexivity]).
  split; [|split; [|split; [|split]]].
  - subst m. unfold calc_macros. cbv zeta. simpl protein_g_per_day.
    apply py_round_nonneg. rewrite mul_comm. now apply mul_nonneg.
  - exact Hkg.
  - exact Hfat.
  - unfold fat_g. apply div_nonneg; [exact Hfat|reflexivity|reflexivity].
  - apply py_max0_nonneg.
Qed.

Lemma macro_targets_nonneg_witness :
  (0 <=? protein_g_per_day (calc_macros 70 "light" "maintain")) = true
  /\ (0 <=? fat_g 2267.03125) = true.
Proof.
  destruct (macro_targets_nonneg 70 2267.03125 "light" "maintain" eq_refl eq_refl)
    as (Hp & _ & _ & Hf & _).
  exact (conj Hp Hf).
Defined.

(** ** The BMR is defined for every moderate age *)

Section IntToFloat.
Local Open Scope Z_scope.

(** A mantissa that is already in canonical form is not changed by the
    rounding. *)
Lemma binary_round_aux_bounded s m e :
  bounded prec emax m e = true ->
  binary_round_aux prec emax s (Zpos m) e loc_Exact = S754_finite s m e.
Proof.
  intros Hb. unfold bounded, canonical_mantissa in Hb.
  apply andb_prop in Hb. destruct Hb as [Hc He]. apply Z.eqb_eq in Hc.
  unfold binary_round_aux, shr_fexp.
  cbv beta iota delta [Zdigits2 shr_record_of_loc].
  rewrite Hc, Z.sub_diag.
  cbv beta iota delta [shr shr_m loc_of_shr_record round_nearest_even Zdigits2
                       shr_record_of_loc].
  rewrite Hc, Z.sub_diag. cbv beta iota. now rewrite He.
Qed.

Lemma shl_align_nat m e (k : nat) :
  shl_align m e (e - Z.of_nat k) = (Pos.shiftl_nat m k, e - Z.of_nat k).
Proof.
  unfold shl_align. destruct k as [|k].
  - simpl Z.of_nat. rewrite Z.sub_0_r, Z.sub_diag. reflexivity.
  - replace (e - Z.of_nat (S k) - e) with (Z.neg (Pos.of_succ_nat k)) by lia.
    rewrite Pos2Nat.inj_iter, SuccNat2Pos.id_succ. reflexivity.
Qed.

Lemma binary_round_small s p :
  Zpos p < 2 ^ 53 ->
  exists p' e',
    binary_round prec emax s p 0 = S754_finite s p' e'
    /\ bounded prec emax p' e' = true
    /\ Zpos p' * 2 ^ (e' + 1074) = Zpos p * 2 ^ 1074.
Proof.
  intros Hp.
  pose proof (digits2_pos_bounds p) as [Hlo _].
  set (d := Zpos (digits2_pos p)) in *.
  assert (Hd : 1 <= d <= 53).
  { split; [subst d; lia|].
    destruct (Z.le_gt_cases d 53) as [|Hgt]; [assumption|exfalso].
    assert (2 ^ 53 <= 2 ^ (d - 1)) by (apply Z.pow_le_mono_r; lia). lia. }
  set (k := Z.to_nat (53 - d)).
  assert (Hk : Z.of_nat k = 53 - d) by (subst k; lia).
  exists (Pos.shiftl_nat p k), (0 - Z.of_nat k).
  assert (Hb : bounded prec emax (Pos.shiftl_nat p k) (0 - Z.of_nat k) = true).
  { unfold bounded, canonical_mantissa, fexp.
    change (SpecFloat.emin prec emax) with (-1074). change prec with 53.
    change emax with 1024.
    rewrite digits2_pos_shiftl_nat. fold d.
    apply andb_true_intro. split; [apply Z.eqb_eq|apply Z.leb_le]; lia. }
  split; [|split; [exact Hb|]].
  - unfold binary_round. fold d. unfold fexp.
    change (SpecFloat.emin prec emax) with (-1074). change prec with 53.
    replace (Z.max (d + 0 - 53) (-1074)) with (0 - Z.of_nat k) by lia.
    rewrite shl_align_nat. now apply binary_round_aux_bounded.
  - rewrite shiftl_nat_Z, <- Z.mul_assoc, <- Z.pow_add_r by lia.
    f_equal. f_equal. lia.
Qed.

Lemma float_of_int_small z :
  Z.abs z < 2 ^ 53 ->
  exists f, float_of_int z = Some f /\ float_units f = Some (z * 2 ^ 1074).
Proof.
  intros Hz. unfold float_of_int, float_units.
  destruct z as [|p|p]; cbv beta iota delta [binary_normalize].
  - exists 0%float. split; reflexivity.
  - destruct (binary_round_small false p) as (p' & e' & -> & Hb & Hv); [lia|].
    eexists. split; [reflexivity|].
    rewrite Prim2SF_SF2Prim by exact Hb.
    unfold SF2units, cond_Zopp. now rewrite Hv.
  - destruct (binary_round_small true p) as (p' & e' & -> & Hb & Hv); [lia|].
    eexists. split; [reflexivity|].
    rewrite Prim2SF_SF2Prim by exact Hb.
    unfold SF2units, cond_Zopp. f_equal.
    change (Z.neg p) with (- Zpos p). lia.
Qed.

End IntToFloat.

(** X11: for every age with |5 age| < 2^53, [calc_bmr] returns a value
    (no [OverflowError]), and the age term it subtracts is exactly 5 age:
    the conversion to float does not round. *)
Theorem calc_bmr_defined sex weight height age :
  (Z.abs (5 * age) < 2 ^ 53)%Z ->
  exists age5 bmr,
    float_units age5 = Some (5 * age * 2 ^ 1074)%Z
    /\ calc_bmr sex weight height age = Some bmr
    /\ bmr = (if (sex =? "male")%string
              then 10 * weight + 6.25 * height - age5 + 5
              else 10 * weight + 6.25 * height - age5 - 161).
Proof.
  intros Hage.
  destruct (float_of_int_small (5 * age) Hage) as (age5 & Hf & Hu).
  unfold calc_bmr. rewrite Hf. exists age5.
  destruct (sex =? "male")%string; eexists; repeat split; exact Hu.
Qed.

Lemma calc_bmr_defined_witness :
  exists age5 bmr,
    float_units age5 = Some (5 * 30 * 2 ^ 1074)%Z
    /\ calc_bmr "female" 60 165 30 = Some bmr
    /\ bmr = 10 * 60 + 6.25 * 165 - age5 - 161.
Proof.
  apply (calc_bmr_defined "female" 60 165 30). reflexivity.
Defined.


(** ** Reading the profile and running the estimate *)

Local Open Scope string_scope.

Section UserInputFacts.
Variables strip lower : string -> string.
Variable py_int : string -> option Z.
Variable py_float : string -> option float.

Local Abbreviation profile' := (profile strip lower py_int py_float).
Local Abbreviation said_yes' := (said_yes strip lower).
Local Abbreviation said_yes_no' := (said_yes_no strip lower).

(** One question: a line is read, and the answer kept is [answer]. *)
Lemma ask_bind {A B} (d : A) cast (f : A -> io B) lines :
  bind (input_or_default strip (Some d) cast) (fun o => bind (expect o) f) lines
  = match lines with
    | [] => Raise EOFError
    | v :: rest => f (answer strip d cast v) rest
    end.
Proof.
  unfold input_or_default, answer, bind, input, expect, ret.
  destruct lines as [|v rest]; [reflexivity|].
  cbv beta iota. rewrite andb_true_r.
  destruct (strip v =? ""); [reflexivity|].
  destruct (cast v); reflexivity.
Qed.

(** X12: [input_or_default] raises [EOFError] on an empty input and
    otherwise consumes exactly one line; the result is the default or the
    converted line: the default when the conversion fails (even when the
    default is [None]) and when the line is blank and a default is given,
    the converted line when the line is not blank and converts. *)
Theorem input_or_default_behaviour {A} (default : option A) cast lines :
  match lines with
  | [] => input_or_default strip default cast lines = Raise EOFError
  | v :: rest =>
      exists r, input_or_default strip default cast lines = Ok r rest
                /\ (r = default \/ r = cast v)
                /\ (cast v = None -> r = default)
                /\ (strip v = "" -> default <> None -> r = default)
                /\ (strip v <> "" -> cast v <> None -> r = cast v)
  end.
Proof.
  unfold input_or_default, bind, input, ret.
  destruct lines as [|v rest]; [reflexivity|].
  destruct (String.eqb_spec (strip v) "") as [Hb|Hb]; simpl andb.
  - destruct default as [d|].
    + exists (Some d). repeat split; auto. congruence.
    + destruct (cast v) as [x|] eqn:Hc.
      * exists (Some x). repeat split; auto; congruence.
      * exists None. repeat split; auto.
  - destruct (cast v) as [x|] eqn:Hc.
    + exists (Some x). repeat split; auto; congruence.
    + exists default. repeat split; auto; congruence.
Qed.

Lemma get_user_data_eq lines :
  get_user_data strip lower py_int py_float lines
  = match lines with
    | l1 :: l2 :: l3 :: l4 :: l5 :: l6 :: l7 :: tail =>
        if lower (strip (answer strip "male" py_str l1)) =? "female"
        then match tail with
             | m :: p :: b :: n :: rest =>
                 Ok (profile' l1 l2 l3 l4 l5 l6 l7
                             (said_yes' m, said_yes_no' p, said_yes_no' b) n) rest
             | _ => Raise EOFError
             end
        else match tail with
             | n :: rest =>
                 Ok (profile' l1 l2 l3 l4 l5 l6 l7 (false, false, false) n) rest
             | [] => Raise EOFError
             end
    | _ => Raise EOFError
    end.
Proof.
  unfold get_user_data.
  rewrite ask_bind. destruct lines as [|l1 lines]; [reflexivity|].
  cbv zeta.
  do 6 (rewrite ask_bind; destruct lines as [|? lines]; [reflexivity|]).
  unfold bind at 1.
  destruct (lower (strip (answer strip "male" py_str l1)) =? "female").
  - do 3 (rewrite ask_bind; destruct lines as [|? lines]; [reflexivity|]).
    unfold ret at 1.
    rewrite ask_bind. destruct lines as [|? lines]; reflexivity.
  - unfold ret at 1.
    rewrite ask_bind. destruct lines as [|? lines]; reflexivity.
Qed.

Lemma get_user_data_ok lines u rest :
  get_user_data strip lower py_int py_float lines = Ok u rest ->
  exists l1 l2 l3 l4 l5 l6 l7 tail,
    lines = l1 :: l2 :: l3 :: l4 :: l5 :: l6 :: l7 :: tail
    /\ ((user_sex u = "female"
         /\ exists m p b n,
             tail = m :: p :: b :: n :: rest
             /\ u = profile' l1 l2 l3 l4 l5 l6 l7
                            (said_yes' m, said_yes_no' p, said_yes_no' b) n)
        \/ (user_sex u <> "female"
            /\ exists n,
                tail = n :: rest
                /\ u = profile' l1 l2 l3 l4 l5 l6 l7 (false, false, false) n)).
Proof.
  rewrite get_user_data_eq.
  destruct lines as [|l1 [|l2 [|l3 [|l4 [|l5 [|l6 [|l7 tail]]]]]]];
    try discriminate.
  intros H. exists l1, l2, l3, l4, l5, l6, l7, tail. split; [reflexivity|].
  destruct (String.eqb_spec (lower (strip (answer strip "male" py_str l1)))
                            "female") as [Hf|Hf].
  - destruct tail as [|m [|p [|b [|n rest']]]]; try discriminate.
    inversion H; subst. left. split; [exact Hf|].
    exists m, p, b, n. split; reflexivity.
  - destruct tail as [|n rest']; [discriminate|].
    inversion H; subst. right. split; [exact Hf|].
    exists n. split; reflexivity.
Qed.

Lemma flags_false_unless_female lines u rest :
  get_user_data strip lower py_int py_float lines = Ok u rest ->
  user_sex u <> "female" ->
  user_menstruating u = false
  /\ user_pregnant u = false
  /\ user_breastfeeding u = false.
Proof.
  intros H Hsex.
  destruct (get_user_data_ok _ _ _ H)
    as (l1 & l2 & l3 & l4 & l5 & l6 & l7 & tail & _ & [[Hf _]|[_ (n & _ & ->)]]).
  - contradiction.
  - repeat split.
Qed.

(** X13: in a profile returned by [get_user_data], the three flags are
    false unless the sex (stripped and lowercased) is female. *)
Theorem flags_only_for_female lines u rest :
  get_user_data strip lower py_int py_float lines = Ok u rest ->
  user_sex u <> "female" ->
  user_menstruating u = false
  /\ user_pregnant u = false
  /\ user_breastfeeding u = false.
Proof. apply flags_false_unless_female. Qed.

(** X14: a successful [get_user_data] has read exactly 11 lines when the
    sex is female and exactly 8 otherwise; the rest of the input is left
    untouched. *)
Theorem get_user_data_consumes lines u rest :
  get_user_data strip lower py_int py_float lines = Ok u rest ->
  exists used,
    lines = (used ++ rest)%list
    /\ List.length used = if user_sex u =? "female" then 11%nat else 8%nat.
Proof.
  intros H.
  destruct (get_user_data_ok _ _ _ H)
    as (l1 & l2 & l3 & l4 & l5 & l6 & l7 & tail & -> &
        [[Hf (m & p & b & n & -> & _)]|[Hf (n & -> & _)]]).
  - exists [l1; l2; l3; l4; l5; l6; l7; m; p; b; n].
    rewrite Hf. split; reflexivity.
  - exists [l1; l2; l3; l4; l5; l6; l7; n].
    apply String.eqb_neq in Hf. rewrite Hf. split; reflexivity.
Qed.

Lemma get_user_data_outcome lines :
  ((List.length lines < 8)%nat -> get_user_data strip lower py_int py_float lines = Raise EOFError)
  /\ ((11 <= List.length lines)%nat ->
      exists u rest, get_user_data strip lower py_int py_float lines = Ok u rest)
  /\ (forall e, get_user_data strip lower py_int py_float lines = Raise e ->
                e = EOFError /\ (List.length lines < 11)%nat).
Proof.
  rewrite get_user_data_eq.
  assert (Hraise : forall (ls : list string),
             (List.length ls < 11)%nat ->
             (11 <= List.length ls -> exists u rest,
                 @Raise user EOFError = Ok u rest)%nat
             /\ (forall e, @Raise user EOFError = Raise e ->
                           e = EOFError /\ (List.length ls < 11)%nat)).
  { intros ls Hls. split; [lia|].
    intros e He. inversion He. split; [reflexivity|exact Hls]. }
  assert (Hok : forall (ls : list string) (u : user) rest,
             (8 <= List.length ls)%nat ->
             ((List.length ls < 8)%nat -> Ok u rest = Raise EOFError)
             /\ ((11 <= List.length ls)%nat ->
                 exists u' rest', Ok u rest = Ok u' rest')
             /\ (forall e, Ok u rest = Raise e ->
                           e = EOFError /\ (List.length ls < 11)%nat)).
  { intros ls u rest Hls. split; [lia|]. split; [eauto|discriminate]. }
  destruct lines as [|l1 [|l2 [|l3 [|l4 [|l5 [|l6 [|l7 tail]]]]]]];
    try (split; [intros _; reflexivity|apply Hraise; simpl; lia]).
  destruct (lower (strip (answer strip "male" py_str l1)) =? "female").
  - destruct tail as [|m [|p [|b [|n rest]]]];
      try (apply Hok; simpl; lia);
      (split; [intros _; reflexivity|apply Hraise; simpl; lia]).
  - destruct tail as [|n rest];
      [split; [intros _; reflexivity|apply Hraise; simpl; lia]
      |apply Hok; simpl; lia].
Qed.

(** X15: [get_user_data] raises [EOFError] when fewer than 8 lines are
    available, returns a profile when at least 11 are, and raises
    nothing but [EOFError] (and only with fewer than 11 lines). *)
Theorem get_user_data_eof lines :
  ((List.length lines < 8)%nat -> get_user_data strip lower py_int py_float lines = Raise EOFError)
  /\ ((11 <= List.length lines)%nat ->
      exists u rest, get_user_data strip lower py_int py_float lines = Ok u rest)
  /\ (forall e, get_user_data strip lower py_int py_float lines = Raise e ->
                e = EOFError /\ (List.length lines < 11)%nat).
Proof. apply get_user_data_outcome. Qed.


(** X16: what [get_user_data] keeps of the answers: the sex is stripped
    and lowercased, the activity and the goal are kept as typed (neither
    stripped nor lowercased); a blank answer gives the default (male, 30,
    70.0, 175.0, light, maintain, no body fat) and so does a number that
    does not convert. *)
Theorem answers_kept l1 l2 l3 l4 l5 l6 l7 tail u rest :
  get_user_data strip lower py_int py_float (l1 :: l2 :: l3 :: l4 :: l5 :: l6 :: l7 :: tail) = Ok u rest ->
  (strip l1 <> "" -> user_sex u = lower (strip l1))
  /\ (strip l1 = "" -> user_sex u = lower (strip "male"))
  /\ (strip l6 <> "" -> user_activity u = l6)
  /\ (strip l6 = "" -> user_activity u = "light")
  /\ (strip l7 <> "" -> user_goal u = l7)
  /\ (strip l7 = "" -> user_goal u = "maintain")
  /\ (strip l2 = "" \/ py_int l2 = None -> user_age u = 30%Z)
  /\ (forall n, strip l2 <> "" -> py_int l2 = Some n -> user_age u = n)
  /\ (strip l3 = "" \/ py_float l3 = None -> user_weight u = 70.0%float)
  /\ (strip l4 = "" \/ py_float l4 = None -> user_height u = 175.0%float)
  /\ (strip l5 = "" -> user_body_fat u = None).
Proof.
  intros H.
  assert (Hu : exists flags n, u = profile' l1 l2 l3 l4 l5 l6 l7 flags n).
  { destruct (get_user_data_ok _ _ _ H)
      as (? & ? & ? & ? & ? & ? & ? & ? & Heq &
          [[_ (m & p & b & n & _ & ->)]|[_ (n & _ & ->)]]);
      inversion Heq; subst; eauto. }
  destruct Hu as (flags & n & ->). clear H.
  unfold profile, answer, py_str; simpl.
  repeat split.
  - intros Hne. apply String.eqb_neq in Hne. now rewrite Hne.
  - intros ->. reflexivity.
  - intros Hne. apply String.eqb_neq in Hne. now rewrite Hne.
  - intros ->. reflexivity.
  - intros Hne. apply String.eqb_neq in Hne. now rewrite Hne.
  - intros ->. reflexivity.
  - intros [-> | ->]; [reflexivity|]. now destruct (strip l2 =? "").
  - intros k Hne ->. apply String.eqb_neq in Hne. now rewrite Hne.
  - intros [-> | ->]; [reflexivity|]. now destruct (strip l3 =? "").
  - intros [-> | ->]; [reflexivity|]. now destruct (strip l4 =? "").
  - intros ->. reflexivity.
Qed.

(** X17: when all eight questions are answered with a blank line,
    [get_user_data] returns the default profile and [main] reports BMR
    1648.75, TDEE 2267.03125, protein 56.0 g at 0.8 g/kg, the male base
    table and no lean body mass. *)
Theorem main_all_defaults l1 l2 l3 l4 l5 l6 l7 l8 rest :
  Forall (fun l => strip l = "") [l1; l2; l3; l4; l5; l6; l7; l8] ->
  lower (strip "male") = "male" ->
  get_user_data strip lower py_int py_float (l1 :: l2 :: l3 :: l4 :: l5 :: l6 :: l7 :: l8 :: rest)
  = Ok default_user rest
  /\ exists r,
      main strip lower py_int py_float (l1 :: l2 :: l3 :: l4 :: l5 :: l6 :: l7 :: l8 :: rest) = Ok r rest
      /\ report_user r = default_user
      /\ report_bmr r = 1648.75%float
      /\ report_tdee r = 2267.03125%float
      /\ report_macros r
         = {| protein_g_per_day := 56.0; protein_g_per_kg := 0.8 |}
      /\ report_micro r = base_micronutrient_table "male" 30 false false false
      /\ report_lbm r = None.
Proof.
  intros Hblank Hmale.
  repeat match goal with
         | H : Forall _ (_ :: _) |- _ => inversion H; subst; clear H
         end.
  assert (Hgud : get_user_data strip lower py_int py_float (l1 :: l2 :: l3 :: l4 :: l5 :: l6 :: l7 :: l8 :: rest)
                 = Ok default_user rest).
  { rewrite get_user_data_eq. unfold profile, answer.
    repeat match goal with H : strip _ = "" |- _ => rewrite H; clear H end.
    change ("" =? "") with true. cbv beta iota.
    rewrite Hmale. reflexivity. }
  split; [exact Hgud|].
  unfold main, bind. rewrite Hgud.
  eexists. split; [reflexivity|]. repeat split; vm_compute; reflexivity.
Qed.

Lemma main_eq lines :
  main strip lower py_int py_float lines
  = match get_user_data strip lower py_int py_float lines with
    | Raise e => Raise e
    | Ok u rest =>
        match calc_bmr (user_sex u) (user_weight u) (user_height u)
                       (user_age u) with
        | None => Raise OverflowError
        | Some bmr =>
            let tdee := calc_tdee bmr (user_activity u) (user_goal u) in
            let macros := calc_macros (user_weight u) (user_activity u)
                                      (user_goal u) in
            Ok {| report_user := u;
                  report_bmr := bmr;
                  report_tdee := tdee;
                  report_macros := macros;
                  report_micro :=
                    base_micronutrient_table
                      (user_sex u) (user_age u) (user_menstruating u)
                      (user_pregnant u) (user_breastfeeding u);
                  report_lbm := option_map (lbm (user_weight u))
                                           (user_body_fat u);
                  report_fat_g := fat_g tdee;
                  report_carbs_g := carbs_g tdee (protein_g_per_day macros) |}
               rest
        end
    end.
Proof.
  unfold main, bind. destruct (get_user_data strip lower py_int py_float lines) as [u rest|e]; [|reflexivity].
  destruct (calc_bmr _ _ _ _); reflexivity.
Qed.

(** X18: [main] can fail in two ways only: [EOFError], with fewer than
    11 input lines, or [OverflowError], when 5 age is too large for a
    float. *)
Theorem main_errors lines e :
  main strip lower py_int py_float lines = Raise e ->
  (e = EOFError /\ (List.length lines < 11)%nat)
  \/ (e = OverflowError
      /\ exists u rest,
          get_user_data strip lower py_int py_float lines = Ok u rest
          /\ float_of_int (5 * user_age u) = None).
Proof.
  rewrite main_eq.
  destruct (get_user_data strip lower py_int py_float lines) as [u rest|e'] eqn:Hgud.
  - unfold calc_bmr.
    destruct (float_of_int (5 * user_age u)) eqn:Hage.
    + destruct (user_sex u =? "male"); discriminate.
    + intros H. inversion H. right. split; [reflexivity|]. now exists u, rest.
  - intros H. inversion H. subst e'. left.
    now apply (proj2 (proj2 (get_user_data_outcome lines))).
Qed.


(** X20: the report of [main] is computed from the profile that
    [get_user_data] returned: the BMR and TDEE are those of the profile,
    the table has the 26 nutrient names and, for a sex other than female,
    is the table without any flag; the carbohydrate figure is >= 0 and
    the lean body mass is reported exactly when the body fat is known. *)
Theorem main_report lines r rest :
  main strip lower py_int py_float lines = Ok r rest ->
  let u := report_user r in
  get_user_data strip lower py_int py_float lines = Ok u rest
  /\ calc_bmr (user_sex u) (user_weight u) (user_height u) (user_age u)
     = Some (report_bmr r)
  /\ report_tdee r = calc_tdee (report_bmr r) (user_activity u) (user_goal u)
  /\ keys (report_micro r) = nutrient_keys
  /\ (user_sex u <> "female" ->
      report_micro r
      = base_micronutrient_table (user_sex u) (user_age u) false false false)
  /\ num_nonneg (report_carbs_g r) = true
  /\ (report_lbm r = None <-> user_body_fat u = None).
Proof.
  rewrite main_eq.
  destruct (get_user_data strip lower py_int py_float lines) as [u rest'|e] eqn:Hgud; [|discriminate].
  destruct (calc_bmr _ _ _ _) as [bmr|] eqn:Hbmr; [|discriminate].
  intros H. inversion H. subst rest'. simpl.
  split; [reflexivity|]. split; [exact Hbmr|]. split; [reflexivity|].
  split; [apply table_keys|]. split.
  - intros Hsex.
    destruct (flags_false_unless_female _ _ _ Hgud Hsex) as (-> & -> & ->).
    reflexivity.
  - split; [apply py_max0_nonneg|].
    destruct (user_body_fat u); simpl; split; congruence.
Qed.
End UserInputFacts.

Lemma flags_only_for_female_witness :
  user_menstruating default_user = false
  /\ user_pregnant default_user = false
  /\ user_breastfeeding default_user = false.
Proof.
  apply (flags_only_for_female (fun s => s) (fun s => s)
           (fun _ => None) (fun _ => None)
           [""; ""; ""; ""; ""; ""; ""; ""] default_user []);
    [reflexivity|discriminate].
Defined.

Lemma get_user_data_consumes_witness :
  exists used,
    ["female"; ""; ""; ""; ""; ""; ""; "yes"; "no"; ""; ""; "next"]
    = (used ++ ["next"])%list
    /\ List.length used = 11%nat.
Proof.
  apply (get_user_data_consumes (fun s => s) (fun s => s)
           (fun _ => None) (fun _ => None)
           ["female"; ""; ""; ""; ""; ""; ""; "yes"; "no"; ""; ""; "next"]
           (profile (fun s => s) (fun s => s) (fun _ => None) (fun _ => None)
                    "female" "" "" "" "" "" "" (true, false, false) "")
           ["next"]).
  reflexivity.
Defined.

Lemma answers_kept_witness :
  user_activity
    (profile (fun s => s) (fun s => s) (fun _ => None) (fun _ => None)
             "male" "abc" "" "" "" "Moderate" "" (false, false, false) "")
  = "Moderate".
Proof.
  destruct (answers_kept (fun s => s) (fun s => s)
              (fun _ => None) (fun _ => None)
              "male" "abc" "" "" "" "Moderate" "" [""] _ [] eq_refl)
    as (_ & _ & Hactivity & _).
  apply Hactivity. discriminate.
Defined.

Lemma main_all_defaults_witness :
  get_user_data (fun s => s) (fun s => s) (fun _ => None) (fun _ => None)
                [""; ""; ""; ""; ""; ""; ""; ""]
  = Ok default_user [].
Proof.
  apply (main_all_defaults (fun s => s) (fun s => s)
           (fun _ => None) (fun _ => None) "" "" "" "" "" "" "" "" []);
    [repeat constructor|reflexivity].
Defined.

Lemma main_errors_witness :
  (EOFError = EOFError /\ (List.length (@nil string) < 11)%nat)
  \/ (EOFError = OverflowError
      /\ exists u rest,
          get_user_data (fun s => s) (fun s => s) (fun _ => None)
                        (fun _ => None) [] = Ok u rest
          /\ float_of_int (5 * user_age u) = None).
Proof.
  apply (main_errors (fun s => s) (fun s => s) (fun _ => None) (fun _ => None)
           [] EOFError).
  reflexivity.
Defined.


Lemma main_report_witness :
  exists r rest,
    main (fun s => s) (fun s => s) (fun _ => None) (fun _ => None)
         [""; ""; ""; ""; ""; ""; ""; ""] = Ok r rest
    /\ keys (report_micro r) = nutrient_keys
    /\ num_nonneg (report_carbs_g r) = true.
Proof.
  destruct (main (fun s => s) (fun s => s) (fun _ => None) (fun _ => None)
                 [""; ""; ""; ""; ""; ""; ""; ""]) as [r rest|e] eqn:H.
  - exists r, rest. split; [reflexivity|].
    destruct (main_report _ _ _ _ _ _ _ H) as (_ & _ & _ & Hk & _ & Hc & _).
    exact (conj Hk Hc).
  - vm_compute in H. discriminate H.
Defined.

(** * The rounding of the protein figures *)

Section Rounding.
Local Open Scope Z_scope.

Lemma nearest_even_unique a d k1 k2 :
  0 < d -> nearest_even a d k1 -> nearest_even a d k2 -> k1 = k2.
Proof.
  intros Hd [H1 E1] [H2 E2].
  assert (Hdiff : Z.abs (k1 - k2) * d <= d).
  { replace (Z.abs (k1 - k2) * d) with (Z.abs ((a - k2 * d) - (a - k1 * d))).
    - pose proof (Z.abs_triangle (a - k2 * d) (- (a - k1 * d))) as Ht.
      rewrite Z.abs_opp in Ht.
      replace (a - k2 * d + - (a - k1 * d)) with (a - k2 * d - (a - k1 * d)) in Ht by lia.
      lia.
    - replace (a - k2 * d - (a - k1 * d)) with ((k1 - k2) * d) by ring.
      rewrite Z.abs_mul, (Z.abs_eq d) by lia. reflexivity. }
  assert (Hle : Z.abs (k1 - k2) <= 1) by nia.
  destruct (Z.eq_dec k1 k2) as [|Hne]; [assumption|exfalso].
  assert (Hone : k1 = k2 + 1 \/ k2 = k1 + 1) by lia.
  assert (Ht1 : 2 * Z.abs (a - k1 * d) = d /\ 2 * Z.abs (a - k2 * d) = d).
  { destruct Hone as [-> | ->].
    - replace (a - (k2 + 1) * d) with (a - k2 * d - d) in * by ring. lia.
    - replace (a - (k1 + 1) * d) with (a - k1 * d - d) in * by ring. lia. }
  destruct Ht1 as [T1 T2]. specialize (E1 T1). specialize (E2 T2).
  destruct Hone as [-> | ->].
  - rewrite Z.even_add in E1. rewrite E2 in E1. discriminate.
  - rewrite Z.even_add in E2. rewrite E1 in E2. discriminate.
Qed.

Lemma round_half_even_div_nearest a d :
  0 < d -> nearest_even a d (round_half_even_div a d).
Proof.
  intros Hd. unfold round_half_even_div, nearest_even. cbv zeta.
  pose proof (Z.div_mod a d ltac:(lia)) as Hdm.
  pose proof (Z.mod_pos_bound a d Hd) as Hr.
  set (q := a / d) in *. set (r := a mod d) in *.
  assert (Hq : a - q * d = r) by lia.
  assert (Hq1 : a - (q + 1) * d = r - d) by lia.
  destruct (Z.compare_spec (2 * r) d) as [Heq|Hlt|Hgt].
  - destruct (Z.even q) eqn:Ev.
    + rewrite Hq. split; [lia|auto].
    + rewrite Hq1. split; [lia|]. intros _.
      rewrite Z.even_add, Ev. reflexivity.
  - rewrite Hq. split; lia.
  - rewrite Hq1. split; lia.
Qed.

Lemma nearest_even_scale a d c k :
  0 < c -> nearest_even (a * c) (d * c) k <-> nearest_even a d k.
Proof.
  intros Hc. unfold nearest_even.
  replace (a * c - k * (d * c)) with ((a - k * d) * c) by ring.
  rewrite Z.abs_mul, (Z.abs_eq c) by lia.
  split; intros [H E]; (split; [nia|intros T; apply E; nia]).
Qed.

Lemma nearest_even_opp a d k :
  nearest_even (- a) d k <-> nearest_even a d (- k).
Proof.
  unfold nearest_even.
  replace (- a - k * d) with (- (a - - k * d)) by ring.
  rewrite Z.abs_opp, Z.even_opp. tauto.
Qed.

Lemma div_eucl_pair a b : Z.div_eucl a b = (a / b, a mod b).
Proof. unfold Z.div, Z.modulo. now destruct (Z.div_eucl a b). Qed.

Lemma new_location_compare nb k :
  0 < nb ->
  new_location nb k = if k =? 0 then loc_Exact else loc_Inexact (2 * k ?= nb).
Proof.
  intros Hnb. unfold new_location, new_location_even, new_location_odd.
  destruct (Z.even nb) eqn:Ev; [reflexivity|].
  destruct (k =? 0); [reflexivity|]. f_equal.
  assert (Hodd : Z.odd nb = true) by (rewrite <- Z.negb_even, Ev; reflexivity).
  apply Z.odd_spec in Hodd. destruct Hodd as [j Hj].
  destruct (Z.compare_spec (2 * k + 1) nb), (Z.compare_spec (2 * k) nb);
    try reflexivity; lia.
Qed.

Lemma SFdiv_core_explicit m1 e1 m2 e2 :
  let d1 := Zpos (digits2_pos m1) in
  let d2 := Zpos (digits2_pos m2) in
  let e' := d1 + e1 - (d2 + e2) - 53 in
  let s := e1 - e2 - e' in
  -1074 <= e' -> 0 < s ->
  SFdiv_core_binary prec emax (Zpos m1) e1 (Zpos m2) e2
  = ((Zpos m1 * 2 ^ s) / Zpos m2, e',
     new_location (Zpos m2) ((Zpos m1 * 2 ^ s) mod Zpos m2)).
Proof.
  intros d1 d2 e' s He' Hs.
  unfold SFdiv_core_binary, fexp.
  change (SpecFloat.emin prec emax) with (-1074). change prec with 53.
  cbv beta iota zeta delta [Zdigits2]. fold d1 d2.
  replace (Z.min (Z.max (d1 + e1 - (d2 + e2) - 53) (-1074)) (e1 - e2)) with e'
    by (subst e' s; lia).
  fold s.
  destruct s as [|p|p] eqn:Hsp; try lia.
  rewrite Z.shiftl_mul_pow2 by lia. rewrite div_eucl_pair. reflexivity.
Qed.

Lemma digits2_pos_le_53 p : Zpos p < 2 ^ 53 -> 1 <= Zpos (digits2_pos p) <= 53.
Proof.
  intros Hp. pose proof (digits2_pos_bounds p) as [Hlo _].
  split; [lia|].
  destruct (Z.le_gt_cases (Zpos (digits2_pos p)) 53) as [|Hgt]; [assumption|].
  exfalso.
  assert (2 ^ 53 <= 2 ^ (Zpos (digits2_pos p) - 1))
    by (apply Z.pow_le_mono_r; lia).
  lia.
Qed.

(** The canonical form of an integer below 2^53. *)
Lemma binary_round_canon s p :
  Zpos p < 2 ^ 53 ->
  exists k : nat,
    Z.of_nat k = 53 - Zpos (digits2_pos p)
    /\ binary_round prec emax s p 0
       = S754_finite s (Pos.shiftl_nat p k) (0 - Z.of_nat k)
    /\ bounded prec emax (Pos.shiftl_nat p k) (0 - Z.of_nat k) = true.
Proof.
  intros Hp. pose proof (digits2_pos_le_53 p Hp) as Hd.
  set (d := Zpos (digits2_pos p)) in *.
  exists (Z.to_nat (53 - d)).
  assert (Hk : Z.of_nat (Z.to_nat (53 - d)) = 53 - d) by lia.
  split; [exact Hk|].
  assert (Hb : bounded prec emax (Pos.shiftl_nat p (Z.to_nat (53 - d)))
                       (0 - Z.of_nat (Z.to_nat (53 - d))) = true).
  { unfold bounded, canonical_mantissa, fexp.
    change (SpecFloat.emin prec emax) with (-1074). change prec with 53.
    change emax with 1024.
    rewrite digits2_pos_shiftl_nat. fold d.
    apply andb_true_intro. split; [apply Z.eqb_eq|apply Z.leb_le]; lia. }
  split; [|exact Hb].
  unfold binary_round. fold d. unfold fexp.
  change (SpecFloat.emin prec emax) with (-1074). change prec with 53.
  replace (Z.max (d + 0 - 53) (-1074)) with (0 - Z.of_nat (Z.to_nat (53 - d)))
    by lia.
  rewrite shl_align_nat. now apply binary_round_aux_bounded.
Qed.

(** Dividing two integers below 2^53 gives the same float whether they
    are given as they are or in canonical form. *)
Lemma SFdiv_canon s1 m1 s2 m2 :
  Zpos m1 < 2 ^ 53 -> Zpos m2 < 2 ^ 53 ->
  SF64div (binary_round prec emax s1 m1 0) (binary_round prec emax s2 m2 0)
  = SF64div (S754_finite s1 m1 0) (S754_finite s2 m2 0).
Proof.
  intros H1 H2.
  destruct (binary_round_canon s1 m1 H1) as (k1 & Hk1 & -> & _).
  destruct (binary_round_canon s2 m2 H2) as (k2 & Hk2 & -> & _).
  pose proof (digits2_pos_le_53 m1 H1) as Hd1.
  pose proof (digits2_pos_le_53 m2 H2) as Hd2.
  unfold SF64div, SFdiv.
  rewrite (SFdiv_core_explicit m1 0 m2 0) by lia.
  rewrite (SFdiv_core_explicit (Pos.shiftl_nat m1 k1) (0 - Z.of_nat k1)
                               (Pos.shiftl_nat m2 k2) (0 - Z.of_nat k2))
    by (rewrite !digits2_pos_shiftl_nat; lia).
  rewrite !digits2_pos_shiftl_nat, !shiftl_nat_Z.
  set (d1 := Zpos (digits2_pos m1)) in *.
  set (d2 := Zpos (digits2_pos m2)) in *.
  replace (d1 + Z.of_nat k1 + (0 - Z.of_nat k1)
           - (d2 + Z.of_nat k2 + (0 - Z.of_nat k2)) - 53)
    with (d1 + 0 - (d2 + 0) - 53) by lia.
  set (e' := d1 + 0 - (d2 + 0) - 53).
  replace (0 - Z.of_nat k1 - (0 - Z.of_nat k2) - e') with 53 by (subst e'; lia).
  set (s := 0 - 0 - e').
  set (c := 2 ^ Z.of_nat k2).
  assert (Hc : 0 < c) by (subst c; apply Z.pow_pos_nonneg; lia).
  assert (Hnum : Zpos m1 * 2 ^ Z.of_nat k1 * 2 ^ 53 = Zpos m1 * 2 ^ s * c).
  { subst c s e'. rewrite <- !Z.mul_assoc, <- !Z.pow_add_r by lia.
    f_equal. f_equal. lia. }
  rewrite Hnum.
  rewrite Z.div_mul_cancel_r by lia.
  rewrite Zmult_mod_distr_r.
  rewrite !new_location_compare by lia.
  set (r := (Zpos m1 * 2 ^ s) mod Zpos m2).
  assert (Hz : (r * c =? 0) = (r =? 0)).
  { destruct (Z.eqb_spec r 0) as [->|Hr]; [reflexivity|].
    apply Z.eqb_neq. nia. }
  rewrite Hz.
  replace (2 * (r * c)) with (2 * r * c) by ring.
  rewrite <- (Zmult_compare_compat_r (2 * r) (Zpos m2) c) by lia.
  reflexivity.
Qed.

Lemma nearest_even_exact d k : 0 < d -> nearest_even (k * d) d k.
Proof.
  intros Hd. unfold nearest_even. rewrite Z.sub_diag. simpl Z.abs. lia.
Qed.

Lemma round_half_even_div_nonneg a d :
  0 <= a -> 0 < d -> 0 <= round_half_even_div a d.
Proof.
  intros Ha Hd. unfold round_half_even_div.
  assert (0 <= a / d) by (apply Z.div_pos; lia).
  destruct (2 * (a mod d) ?= d); [destruct (Z.even (a / d))| |]; lia.
Qed.

(** The float of an integer below 2^53 in absolute value. *)
Lemma float_of_int_signed s p :
  Zpos p < 2 ^ 53 ->
  exists f,
    float_of_int (cond_Zopp s (Zpos p)) = Some f
    /\ Prim2SF f = binary_round prec emax s p 0.
Proof.
  intros Hp. destruct (binary_round_canon s p Hp) as (k & _ & Hr & Hb).
  exists (SF2Prim (binary_round prec emax s p 0)).
  split.
  - unfold float_of_int.
    destruct s; cbv beta iota delta [cond_Zopp Z.opp binary_normalize];
      rewrite Hr; reflexivity.
  - rewrite Hr. apply Prim2SF_SF2Prim. exact Hb.
Qed.

(** The quotient of two integers below 2^53, as computed on the integers
    and as computed by the float division of their floats. *)
Lemma int_div_float s p1 p2 :
  Zpos p1 < 2 ^ 53 -> Zpos p2 < 2 ^ 53 ->
  exists f1 f2,
    float_of_int (cond_Zopp s (Zpos p1)) = Some f1
    /\ float_of_int (Zpos p2) = Some f2
    /\ SF2Prim (SF64div (S754_finite s p1 0) (S754_finite false p2 0))
       = (f1 / f2)%float.
Proof.
  intros H1 H2.
  destruct (float_of_int_signed s p1 H1) as (f1 & Hf1 & Hs1).
  destruct (float_of_int_signed false p2 H2) as (f2 & Hf2 & Hs2).
  exists f1, f2. split; [exact Hf1|]. split; [exact Hf2|].
  rewrite <- (SF2Prim_Prim2SF (f1 / f2)), div_spec, Hs1, Hs2.
  now rewrite SFdiv_canon.
Qed.

Lemma py_round_rounded_to y nd :
  10 ^ Z.of_N nd < 2 ^ 53 -> rounded_to nd y (py_round y nd).
Proof.
  intros Hnd. unfold rounded_to, float_units, py_round.
  pose proof (Prim2SF_valid y) as Hv.
  assert (Hd : 0 < 2 ^ 1074) by (apply Z.pow_pos_nonneg; lia).
  assert (Hp10 : 0 < 10 ^ Z.of_N nd) by (apply Z.pow_pos_nonneg; lia).
  destruct (Prim2SF y) as [s| s| |s m e] eqn:Hy;
    cbv beta iota delta [SF2units]; try reflexivity.
  - (* a zero *)
    exists 0. split.
    + rewrite Z.mul_0_r. apply (nearest_even_exact (2 ^ 1074) 0 Hd).
    + intros _. cbv beta iota delta [Z.eqb]. unfold float_units.
      now rewrite Hy.
  - (* a finite, nonzero float *)
    cbv beta iota delta [valid_binary] in Hv.
    pose proof (bounded_exponent m e Hv) as He.
    set (p10 := 10 ^ Z.of_N nd) in *.
    set (n := if 0 <=? e then Zpos m * 2 ^ e * p10
              else round_half_even_div (Zpos m * p10) (2 ^ (- e))).
    cbv zeta.
    assert (Hn : 0 <= n
                 /\ nearest_even (Zpos m * 2 ^ (e + 1074) * p10) (2 ^ 1074) n).
    { subst n. destruct (Z.leb_spec 0 e) as [Hpos|Hneg].
      - split; [apply Z.mul_nonneg_nonneg; [apply Z.mul_nonneg_nonneg|]; lia|].
        replace (Zpos m * 2 ^ (e + 1074) * p10)
          with (Zpos m * 2 ^ e * p10 * 2 ^ 1074)
          by (rewrite Z.pow_add_r by lia; ring).
        apply nearest_even_exact. exact Hd.
      - assert (Hde : 0 < 2 ^ (- e)) by (apply Z.pow_pos_nonneg; lia).
        split; [apply round_half_even_div_nonneg; lia|].
        assert (Hc : 0 < 2 ^ (e + 1074)) by (apply Z.pow_pos_nonneg; lia).
        replace (Zpos m * 2 ^ (e + 1074) * p10)
          with (Zpos m * p10 * 2 ^ (e + 1074)) by ring.
        replace (2 ^ 1074) with (2 ^ (- e) * 2 ^ (e + 1074))
          by (rewrite <- Z.pow_add_r by lia; f_equal; lia).
        apply nearest_even_scale; [exact Hc|].
        apply round_half_even_div_nearest. exact Hde. }
    destruct Hn as [Hn0 Hnear].
    exists (cond_Zopp s n). split.
    + destruct s; cbv beta iota delta [cond_Zopp].
      * apply nearest_even_opp.
        replace (- (p10 * (- Zpos m * 2 ^ (e + 1074))))
          with (Zpos m * 2 ^ (e + 1074) * p10) by ring.
        exact Hnear.
      * replace (p10 * (Zpos m * 2 ^ (e + 1074)))
          with (Zpos m * 2 ^ (e + 1074) * p10) by ring.
        exact Hnear.
    + intros Hk.
      assert (Hk' : n < 2 ^ 53)
        by (destruct s; cbv beta iota delta [cond_Zopp] in Hk; lia).
      clearbody n. destruct n as [|n'|n']; [| |lia].
      * replace (cond_Zopp s 0) with 0 by (now destruct s).
        cbv beta iota delta [Z.eqb]. now destruct s.
      * assert (Hnz : (cond_Zopp s (Zpos n') =? 0) = false)
          by (now destruct s).
        rewrite Hnz.
        destruct (int_div_float s n' (Z.to_pos p10)) as (f1 & f2 & H1 & H2 & H3).
        { exact Hk'. }
        { rewrite Z2Pos.id by exact Hp10. exact Hnd. }
        exists f1, f2. split; [exact H1|].
        rewrite Z2Pos.id in H2 by exact Hp10.
        split; [exact H2|exact H3].
Qed.

End Rounding.

Local Open Scope string_scope.
Local Open Scope float_scope.

Lemma float_of_int_10 : float_of_int 10 = Some 10%float.
Proof. vm_compute. reflexivity. Qed.

Lemma protein_rate_rounded activity goal :
  py_round (protein_rate_spec activity goal) 2 = protein_rate_spec activity goal.
Proof.
  unfold protein_rate_spec.
  destruct (str_in activity ["moderate"; "active"; "very_active"]);
    destruct (goal =? "gain")%string; destruct (goal =? "lose")%string;
    vm_compute; reflexivity.
Qed.

(** C6: for every weight, activity and goal, the protein target is the
    rate times the weight rounded to one decimal and the reported rate is
    the rate rounded to two decimals, where the rate is 0.8 g/kg (sedentary,
    light, or a name that is not an activity), replaced by 1.2 g/kg for
    moderate, active and very_active, plus 0.3 for the goal gain or 0.2 for
    the goal lose.  The reported rates are 0.8, 1.1, 1.0, 1.2, 1.5, 1.4,
    which the rounding to two decimals leaves as they are.  Rounded to one
    decimal means: with k the integer nearest to ten times the exact
    product (the even one on a tie), the target is the float of k divided
    by 10.0, as long as k is not 0 and is below 2^53 in absolute value; so
    2.25 gives 2.2, 0.75 gives 0.8 and 101.21999999999998 gives 101.2. *)
Theorem protein_rule weight activity goal :
  calc_macros weight activity goal
  = {| protein_g_per_day :=
         py_round (protein_rate_spec activity goal * weight) 1;
       protein_g_per_kg := py_round (protein_rate_spec activity goal) 2 |}
  /\ (protein_rate_spec "sedentary" goal = protein_rate_spec "light" goal
      /\ protein_rate_spec "moderate" goal = protein_rate_spec "active" goal
      /\ protein_rate_spec "active" goal = protein_rate_spec "very_active" goal)
  /\ (str_in activity ["sedentary"; "light"; "moderate"; "active";
                       "very_active"]%string = false ->
      protein_rate_spec activity goal = protein_rate_spec "light" goal)
  /\ (py_round (protein_rate_spec "light" "maintain") 2 = 0.8
      /\ py_round (protein_rate_spec "light" "gain") 2 = 1.1
      /\ py_round (protein_rate_spec "light" "lose") 2 = 1.0
      /\ py_round (protein_rate_spec "active" "maintain") 2 = 1.2
      /\ py_round (protein_rate_spec "active" "gain") 2 = 1.5
      /\ py_round (protein_rate_spec "active" "lose") 2 = 1.4)
  /\ (rounded_to 1 (protein_rate_spec activity goal * weight)
                 (protein_g_per_day (calc_macros weight activity goal))
      /\ rounded_to 2 (protein_rate_spec activity goal)
                    (protein_g_per_kg (calc_macros weight activity goal)))
  /\ (forall u k : Z,
         float_units (protein_rate_spec activity goal * weight) = Some u ->
         nearest_even (10 * u) (2 ^ 1074) k ->
         k <> 0%Z -> (Z.abs k < 2 ^ 53)%Z ->
         exists fk,
           float_of_int k = Some fk
           /\ protein_g_per_day (calc_macros weight activity goal) = fk / 10)
  /\ protein_g_per_kg (calc_macros weight activity goal)
     = protein_rate_spec activity goal
  /\ (protein_g_per_day (calc_macros 70 "light" "maintain") = 56
      /\ protein_g_per_day (calc_macros 1.5 "active" "gain") = 2.2
      /\ protein_g_per_day (calc_macros 0.5 "active" "gain") = 0.8
      /\ protein_g_per_day (calc_macros 0.25 "light" "lose") = 0.2
      /\ protein_g_per_day (calc_macros 72.3 "moderate" "lose") = 101.2
      /\ protein_g_per_day (calc_macros 64.35 "light" "gain") = 70.8
      /\ protein_g_per_day (calc_macros (-1.5) "active" "gain") = (-2.2)
      /\ protein_g_per_day (calc_macros 0.01 "light" "maintain") = 0
      /\ protein_g_per_day (calc_macros (-0.01) "light" "maintain") = (-0)).
Proof.
  assert (Hcalc : calc_macros weight activity goal
                  = {| protein_g_per_day :=
                         py_round (protein_rate_spec activity goal * weight) 1;
                       protein_g_per_kg :=
                         py_round (protein_rate_spec activity goal) 2 |}).
  { unfold calc_macros. cbv zeta. now rewrite base_protein_spec. }
  split; [exact Hcalc|]. rewrite Hcalc.
  cbv beta iota delta [protein_g_per_day protein_g_per_kg].
  split; [repeat split; reflexivity|].
  split.
  { unfold protein_rate_spec, str_in, existsb. intros Hout.
    repeat (apply orb_false_elim in Hout; destruct Hout as [? Hout]).
    repeat match goal with H : (_ =? _)%string = false |- _ =>
                             rewrite H; clear H end.
    reflexivity. }
  split; [repeat split; vm_compute; reflexivity|].
  split.
  { split; apply py_round_rounded_to; vm_compute; reflexivity. }
  split.
  { intros u k Hu Hnear Hk0 Hk.
    pose proof (py_round_rounded_to (protein_rate_spec activity goal * weight) 1)
      as Hr.
    unfold rounded_to in Hr. rewrite Hu in Hr.
    change (10 ^ Z.of_N 1)%Z with 10%Z in Hr.
    destruct Hr as (k' & Hnear' & Hres); [vm_compute; reflexivity|].
    assert (k' = k)
      by (apply (nearest_even_unique (10 * u) (2 ^ 1074));
          [apply Z.pow_pos_nonneg; lia|assumption|assumption]).
    subst k'. specialize (Hres Hk).
    apply Z.eqb_neq in Hk0. rewrite Hk0 in Hres.
    destruct Hres as (fk & fp & Hfk & Hfp & Hres).
    rewrite float_of_int_10 in Hfp. apply some_inj in Hfp. subst fp.
    exists fk. split; assumption. }
  split; [apply protein_rate_rounded|].
  repeat split; vm_compute; reflexivity.
Qed.

Lemma protein_rule_witness :
  protein_rate_spec "walking" "gain" = protein_rate_spec "light" "gain"
  /\ exists fk,
      float_of_int 22 = Some fk
      /\ protein_g_per_day (calc_macros 1.5 "active" "gain") = fk / 10.
Proof.
  split.
  - destruct (protein_rule 70 "walking" "gain") as (_ & _ & Hother & _).
    exact (Hother eq_refl).
  - destruct (protein_rule 1.5 "active" "gain")
      as (_ & _ & _ & _ & _ & Hround & _).
    apply (Hround (9 * 2 ^ 1072)%Z 22%Z).
    + vm_compute. reflexivity.
    + split; [vm_compute; discriminate|intros _; reflexivity].
    + discriminate.
    + reflexivity.
Defined.
